(** * pytest-inmanta: the [Project] test facade of [pytest_inmanta/plugin.py]

    A shallow embedding of the [Project] class: the in-memory blob and fact
    stores, the plugin loader, resource lookup, and the deploy / dryrun
    protocol run against a mock agent.  The inmanta framework itself (the
    compiler, the exporter, the handler registry, the JSON encoder) is not
    part of the package; it enters the model as a record of collaborator
    functions, and every call the facade makes to it is recorded in a trace. *)

From stdpp Require Import gmap strings list fin_maps.

(** ** Python values and exceptions *)

(** Attribute and filter values.  Python compares them with [!=]; on [None],
    integers (booleans are the integers 0 and 1) and strings that comparison
    is structural, which is what [decide] below computes. *)
Inductive Value :=
  | VNone
  | VInt (z : Z)
  | VStr (s : string).

#[global] Instance Value_eq_dec : EqDecision Value.
Proof. solve_decision. Defined.

(** [a != b] *)
Definition py_ne (a b : Value) : bool := bool_decide (a ≠ b).

(** The exceptions the facade raises or lets through.  [BaseException] stands
    for the ones that do not derive from [Exception] (KeyboardInterrupt,
    SystemExit): an [except Exception] clause does not catch them. *)
Inductive Exn :=
  | AssertionError (msg : option string)
  | TypeError (msg : string)
  | KeyError (key : string)
  | AttributeError (msg : string)
  | Exception (msg : string)
  | BaseException (name : string).

(** [isinstance(e, Exception)] *)
Definition is_Exception (e : Exn) : bool :=
  match e with
  | BaseException _ => false
  | _ => true
  end.

Definition Result (A : Type) : Type := Exn + A.

(** ** Resources, as far as the facade looks into them *)

(** [resource.id]: the typed identifier; [get_handler] reads its version. *)
Record Id := {
  entity_type : string;
  agent_name : string;
  attribute_value : string;
  version_of : Z
}.

(** A compiled resource.  The facade uses [resource.id.version],
    [resource.is_type(name)] and attribute access by name; [fields] is the
    attribute namespace seen by [hasattr] / [getattr]. *)
Record Resource := {
  id : Id;
  fields : gmap string Value
}.

Definition is_type (r : Resource) (type_name : string) : bool :=
  String.eqb (entity_type (id r)) type_name.

Definition hasattr (r : Resource) (arg : string) : bool :=
  match fields r !! arg with
  | Some _ => true
  | None => false
  end.

(** [getattr(resource, arg)], used only after [hasattr] answered True. *)
Definition getattr (r : Resource) (arg : string) : Value :=
  default VNone (fields r !! arg).

(** [const.ResourceState], the members handlers report. *)
Inductive ResourceState :=
  | deployed
  | dry
  | failed
  | skipped
  | unavailable.

#[global] Instance ResourceState_eq_dec : EqDecision ResourceState.
Proof. solve_decision. Defined.

(** ** Handler contexts *)

Definition Blob := list Byte.byte.

(** One entry of [ctx.logs]: [l._data["msg"]] and [l._data["kwargs"]]. *)
Record LogLine := {
  log_msg : string;
  log_kwargs : list (string * string)
}.

(** [handler.HandlerContext]: status, change-set and log sequence.  A fresh
    context has no status, no changes and no logs. *)
Record HandlerContext := {
  ctx_resource : Resource;
  ctx_status : option ResourceState;
  ctx_changes : list (string * (Value * Value));
  ctx_logs : list LogLine
}.

Definition new_HandlerContext (r : Resource) : HandlerContext :=
  {| ctx_resource := r; ctx_status := None; ctx_changes := []; ctx_logs := [] |}.

(** ** The mock agent *)

Record MockAgent := { uri : string }.

(** ** Handlers as programs over the wired file callbacks

    [get_handler] replaces the provider's [get_file], [stat_file] and
    [upload_file] by closures over the project's blob store.  A handler run
    is therefore a finite tree of such calls ending in the final state of the
    context or in an exception: that is all the access it has to the
    project. *)
Inductive HandlerRun :=
  | HDone (st : option ResourceState)
          (chg : list (string * (Value * Value))) (lg : list LogLine)
  | HRaise (e : Exn)
  | HGetFile (key : string) (k : Result Blob -> HandlerRun)
  | HStatFile (key : string) (k : bool -> HandlerRun)
  | HUploadFile (key : string) (content : Blob) (k : HandlerRun).

(** A provider as returned by [handler.Commander.get_provider]. *)
Record Provider := {
  execute : Resource -> bool -> HandlerRun
}.

(** ** Module namespaces, for the plugin loader *)

(** What a name of an imported module's [__dict__] is bound to.  Only
    [PyFunction] objects are instances of [types.FunctionType]; the string
    identifies the definition (two files defining the same name yield two
    different function objects). *)
Inductive PyObj :=
  | PyFunction (definition : string)
  | PyClass (name : string)
  | PyModule (name : string)
  | PyData (v : Value).

Definition is_FunctionType (v : PyObj) : bool :=
  match v with
  | PyFunction _ => true
  | _ => false
  end.

(** The part of the file system the loader reads.  Paths are the component
    lists handed to [os.path.join("/", ...)]; [glob_py d] lists the [*.py]
    files of directory [d] in the order [glob.glob] returns them, each with
    the [__dict__] items of the module importing it produces (the imports
    themselves are taken to succeed); [module_yml_name] is the outcome of
    reading the name out of [module.yml]. *)
Record FileSystem := {
  CURDIR : list string;
  path_exists : list string -> bool;
  module_yml_name : Result string;
  glob_py : list string -> list (string * list (string * PyObj))
}.

(** ** The project object and the world it runs in *)

Record CapSys := { capsys_handle : nat }.

Record Exporter := { _file_store : list (string * Blob) }.

Record Project := {
  _test_project_dir : string;
  _stdout : option string;
  _stderr : option string;
  types : option (gmap string (list string));
  version : option Z;
  resources : list (string * Resource);
  _exporter : option Exporter;
  _blobs : gmap string Blob;
  _facts : gmap string (gmap string Value);
  _plugins : option (gmap string PyObj);
  _capsys : option CapSys
}.

(** What [print] writes when a deployment ends in an unexpected status. *)
Inductive Printed :=
  | PIncorrectStatus
  | PRequestedChanges (chg : list (string * (Value * Value)))
  | PLog (msg : string)
  | PKwargs (items : list string)
  | PTraceback (tb : string).

(** Calls that leave the facade, in the order they happen. *)
Inductive Event :=
  | EvLoadConfig
  | EvOpenVersion (v : Z)
  | EvCloseVersion (v : Z)
  | EvGetProvider (agent : MockAgent) (r : Resource)
  | EvSetCache
  | EvExecute (r : Resource) (dry_run : bool)
  | EvJsonEncode (lg : list LogLine)
  | EvPrint (p : Printed)
  | EvWriteMain (main : string)
  | EvReadOutErr.

Record World := {
  self : Project;
  trace : list Event
}.

(** The result of the external compile and export steps for one model. *)
Record Compiled := {
  c_types : gmap string (list string);
  c_version : Z;
  c_resources : list (string * Resource);
  c_exporter : Exporter;
  c_out : string;
  c_err : string
}.

(** The inmanta collaborators:
    [compiler.do_compile] followed by [export.Exporter().run] on the model
    text and the recorded facts, [handler.Commander.get_provider] on the agent
    and the resource, and [json_encode] on a log sequence. *)
Record Framework := {
  do_compile : string -> gmap string (gmap string Value) -> Result Compiled;
  get_provider : MockAgent -> Resource -> Result Provider;
  json_encode : list LogLine -> Result unit
}.

(** ** A state and exception monad

    A method call transforms the world and either returns or raises; what it
    changed before raising stays changed. *)
Definition M (A : Type) : Type := World -> Result A * World.

Definition ret {A} (a : A) : M A := fun w => (inr a, w).

Definition raise {A} (e : Exn) : M A := fun w => (inl e, w).

Definition bind {A B} (m : M A) (f : A -> M B) : M B :=
  fun w =>
    match m w with
    | (inr a, w') => f a w'
    | (inl e, w') => (inl e, w')
    end.

#[global] Instance M_ret : MRet M := @ret.
#[global] Instance M_bind : MBind M := fun A B f m => bind m f.

Definition get_self : M Project := fun w => (inr (self w), w).

Definition modify_self (f : Project -> Project) : M unit :=
  fun w => (inr tt, {| self := f (self w); trace := trace w |}).

Definition emit (ev : Event) : M unit :=
  fun w => (inr tt, {| self := self w; trace := trace w ++ [ev] |}).

Definition lift {A} (r : Result A) : M A := fun w => (r, w).

(** [assert cond, msg] *)
Definition assert (cond : bool) (msg : option string) : M unit :=
  if cond then ret tt else raise (AssertionError msg).

(** Statements of a function body either fall through to the next statement
    or leave the function with [return]. *)
Inductive Flow (R : Type) :=
  | Next
  | Return (r : R).
Arguments Next {R}.
Arguments Return {R} r.

Definition seq {R} (s1 s2 : M (Flow R)) : M (Flow R) :=
  f ← s1;
  match f with
  | Next => s2
  | Return r => mret (Return r)
  end.

(** An expression statement: evaluate, drop the value, fall through. *)
Definition stmt {A R} (m : M A) : M (Flow R) := m ;; mret Next.

(** [try: body  except Exception as e: handler e] *)
Definition try_except {A} (body : M A) (handler : Exn -> M A) : M A :=
  fun w =>
    match body w with
    | (inl e, w') => if is_Exception e then handler e w' else (inl e, w')
    | ok => ok
    end.

(** Calling a function whose body is [s]: falling off the end returns
    [None]. *)
Definition call {R} (s : M (Flow R)) : M (option R) :=
  f ← s;
  match f with
  | Next => mret None
  | Return r => mret (Some r)
  end.

(** ** Module discovery and the plugin loader *)

(** The [while] loop of [get_module_info], on the reversed component list:
    [dir_path.pop()] until [module.yml] exists under the path or the path is
    empty.  The result is the remaining path, reversed. *)
Fixpoint strip_to_module (fs : FileSystem) (rev_path : list string)
  : list string :=
  match rev_path with
  | [] => []
  | _ :: rest =>
      if path_exists fs (rev rev_path ++ ["module.yml"])
      then rev_path
      else strip_to_module fs rest
  end.

Definition get_module_info (fs : FileSystem)
  : Result (list string * string) :=
  let dir_path := rev (strip_to_module fs (rev (CURDIR fs))) in
  if (length dir_path =? 0)%nat then
    inl (Exception
           ("Module test case have to be saved in the module they are intended for. "
            +:+ String.concat "/" (CURDIR fs) +:+ " not part of module path"))
  else
    match module_yml_name fs with
    | inl e => inl e
    | inr module_name => inr (dir_path, module_name)
    end.

(** [for k, v in sub_mod.__dict__.items(): if isinstance(v, FunctionType):
    result[k] = v] *)
Fixpoint collect_functions (items : list (string * PyObj))
    (result : gmap string PyObj) : gmap string PyObj :=
  match items with
  | [] => result
  | (k, v) :: rest =>
      collect_functions rest
        (if is_FunctionType v then <[k := v]> result else result)
  end.

(** [for py_file in glob.glob(...)]: import the file, scan its namespace. *)
Fixpoint load_files (py_files : list (string * list (string * PyObj)))
    (result : gmap string PyObj) : gmap string PyObj :=
  match py_files with
  | [] => result
  | (_, sub_mod_dict) :: rest =>
      load_files rest (collect_functions sub_mod_dict result)
  end.

(** [Project._load_plugins].  The bare [return] of the first test yields
    Python's [None], here the inner [None]. *)
Definition _load_plugins (fs : FileSystem)
  : Result (option (gmap string PyObj)) :=
  match get_module_info fs with
  | inl e => inl e
  | inr (module_dir, _) =>
      let plugin_dir := module_dir ++ ["plugins"] in
      if negb (path_exists fs plugin_dir) then inr None
      else if negb (path_exists fs (plugin_dir ++ ["__init__.py"])) then
        inl (Exception "Plugins directory doesn't have a __init__.py file.")
      else inr (Some (load_files (glob_py fs plugin_dir) ∅))
  end.

(** [Project.__init__], up to its call of [config.Config.load_config]. *)
Definition Project__init__ (fs : FileSystem) (project_dir : string)
  : Result Project :=
  match _load_plugins fs with
  | inl e => inl e
  | inr plugins =>
      inr {| _test_project_dir := project_dir;
             _stdout := None;
             _stderr := None;
             types := None;
             version := None;
             resources := [];
             _exporter := None;
             _blobs := ∅;
             _facts := ∅;
             _plugins := plugins;
             _capsys := None |}
  end.

(** [key in d] for a dict [d]. *)
Definition contains {V} (d : gmap string V) (key : string) : bool :=
  match d !! key with
  | Some _ => true
  | None => false
  end.

(** [Project.get_plugin_function].  [name in None] is a [TypeError]. *)
Definition get_plugin_function (function_name : string) : M PyObj :=
  p ← get_self;
  match _plugins p with
  | None => raise (TypeError "argument of type 'NoneType' is not iterable")
  | Some plugins =>
      match plugins !! function_name with
      | None =>
          raise (Exception ("Plugin function with name " +:+ function_name
                            +:+ " not found"))
      | Some f => mret f
      end
  end.

(** ** Stores *)

Definition set_blobs (b : gmap string Blob) (p : Project) : Project :=
  {| _test_project_dir := _test_project_dir p;
     _stdout := _stdout p;
     _stderr := _stderr p;
     types := types p;
     version := version p;
     resources := resources p;
     _exporter := _exporter p;
     _blobs := b;
     _facts := _facts p;
     _plugins := _plugins p;
     _capsys := _capsys p |}.

Definition set_facts (f : gmap string (gmap string Value)) (p : Project)
  : Project :=
  {| _test_project_dir := _test_project_dir p;
     _stdout := _stdout p;
     _stderr := _stderr p;
     types := types p;
     version := version p;
     resources := resources p;
     _exporter := _exporter p;
     _blobs := _blobs p;
     _facts := f;
     _plugins := _plugins p;
     _capsys := _capsys p |}.

(** [Project.add_blob(key, content, allow_overwrite=True)]; an omitted
    optional argument is [None] and takes the default. *)
Definition add_blob (key : string) (content : Blob)
    (allow_overwrite : option bool) : M unit :=
  let allow_overwrite := default true allow_overwrite in
  p ← get_self;
  if contains (_blobs p) key && negb allow_overwrite then
    raise (Exception ("Key " +:+ key +:+ " already stored in blobs"))
  else
    modify_self (set_blobs (<[key := content]> (_blobs p))).

Definition stat_blob (key : string) : M bool :=
  p ← get_self;
  mret (contains (_blobs p) key).

Definition get_blob (key : string) : M Blob :=
  p ← get_self;
  match _blobs p !! key with
  | Some content => mret content
  | None => raise (KeyError key)
  end.

(** [self._facts[resource_id][name] = value] on a [defaultdict(dict)]. *)
Definition add_fact (resource_id name : string) (value : Value) : M unit :=
  p ← get_self;
  let facts := _facts p in
  let entry := default ∅ (facts !! resource_id) in
  modify_self (set_facts (<[resource_id := <[name := value]> entry]> facts)).

(** [Project.init] *)
Definition init (capsys : CapSys) : M unit :=
  modify_self (fun p =>
    {| _test_project_dir := _test_project_dir p;
       _stdout := _stdout p;
       _stderr := _stderr p;
       types := None;
       version := None;
       resources := [];
       _exporter := None;
       _blobs := ∅;
       _facts := ∅;
       _plugins := _plugins p;
       _capsys := Some capsys |}) ;;
  emit EvLoadConfig.

(** ** Resource lookup *)

(** The inner [apply_filter] of [get_resource]: every filter attribute must
    exist on the resource and be equal to the filter value. *)
Fixpoint apply_filter (filter_args : list (string * Value))
    (resource : Resource) : bool :=
  match filter_args with
  | [] => true
  | (arg, value) :: rest =>
      if negb (hasattr resource arg) then false
      else if py_ne (getattr resource arg) value then false
      else apply_filter rest resource
  end.

(** The [for] loop of [get_resource] over [self.resources.values()]. *)
Fixpoint first_match (values : list Resource) (resource_type : string)
    (filter_args : list (string * Value)) : option Resource :=
  match values with
  | [] => None
  | resource :: rest =>
      if negb (is_type resource resource_type) then
        first_match rest resource_type filter_args
      else if negb (apply_filter filter_args resource) then
        first_match rest resource_type filter_args
      else Some resource
  end.

(** [dict.values()] of an insertion-ordered dict. *)
Definition values {K V} (d : list (K * V)) : list V := map snd d.

Definition get_resource (resource_type : string)
    (filter_args : list (string * Value)) : M (option Resource) :=
  p ← get_self;
  mret (first_match (values (resources p)) resource_type filter_args).

(** ** Handlers *)

(** A provider after [get_handler] attached the callbacks to it. *)
Record Handler := {
  provider : Provider;
  get_file : string -> M Blob;
  stat_file : string -> M bool;
  upload_file : string -> Blob -> M unit
}.

(** Running a handler: each file call of the run goes through the callback
    attached to the handler.  An exception of [get_file] is raised inside the
    handler, which sees it as the argument of its continuation. *)
Fixpoint run_handler (h : Handler) (r : HandlerRun)
  : M (option ResourceState * list (string * (Value * Value)) * list LogLine) :=
  match r with
  | HDone st chg lg => mret (st, chg, lg)
  | HRaise e => raise e
  | HGetFile key k =>
      fun w => let '(res, w') := get_file h key w in run_handler h (k res) w'
  | HStatFile key k =>
      b ← stat_file h key; run_handler h (k b)
  | HUploadFile key content k =>
      upload_file h key content ;; run_handler h k
  end.

(** [h.execute(ctx, resource, dry_run)]: the handler fills in the context. *)
Definition h_execute (h : Handler) (ctx : HandlerContext)
    (resource : Resource) (dry_run : bool) : M HandlerContext :=
  emit (EvExecute resource dry_run) ;;
  '(st, chg, lg) ← run_handler h (execute (provider h) resource dry_run);
  mret {| ctx_resource := ctx_resource ctx;
          ctx_status := st;
          ctx_changes := chg;
          ctx_logs := lg |}.

(** [for l in ctx.logs: print ...] of [deploy_resource]. *)
Definition assoc (key : string) (d : list (string * string)) : option string :=
  snd <$> List.find (fun kv => String.eqb (fst kv) key) d.

Definition print_log (l : LogLine) : M unit :=
  emit (EvPrint (PLog (log_msg l))) ;;
  emit (EvPrint (PKwargs
    (map (fun kv => fst kv +:+ ": " +:+ snd kv)
         (List.filter (fun kv => negb (String.eqb (fst kv) "traceback"))
                      (log_kwargs l))))) ;;
  match assoc "traceback" (log_kwargs l) with
  | Some tb => emit (EvPrint (PTraceback tb))
  | None => mret tt
  end.

Fixpoint print_logs (ls : list LogLine) : M unit :=
  match ls with
  | [] => mret tt
  | l :: rest => print_log l ;; print_logs rest
  end.

Section Facade.

Context (fw : Framework).

(** The body of [Project.get_handler], statement by statement. *)
Definition get_handler_body (resource : Resource) (run_as_root : bool)
  : M (Flow Handler) :=
  let agent := if run_as_root then {| uri := "ssh://root@localhost" |}
               else {| uri := "local:" |} in
  seq (stmt (emit (EvOpenVersion (version_of (id resource)))))
 (seq (try_except
         (emit (EvGetProvider agent resource) ;;
          p ← lift (get_provider fw agent resource);
          emit EvSetCache ;;
          let p := {| provider := p;
                      get_file := fun x => get_blob x;
                      stat_file := fun x => stat_blob x;
                      upload_file := fun x y => add_blob x y None |} in
          mret (Return p))
         (fun e => raise e))
      (stmt (emit (EvCloseVersion (version_of (id resource)))))).

Definition get_handler (resource : Resource) (run_as_root : bool)
  : M (option Handler) :=
  call (get_handler_body resource run_as_root).

(** [Project.finalize_context]: the logs must serialize. *)
Definition finalize_context (ctx : HandlerContext) : M unit :=
  emit (EvJsonEncode (ctx_logs ctx)) ;;
  lift (json_encode fw (ctx_logs ctx)).

(** [Project.deploy(resource, dry_run=False, run_as_root=False)] *)
Definition deploy (resource : Resource) (dry_run run_as_root : option bool)
  : M HandlerContext :=
  let dry_run := default false dry_run in
  let run_as_root := default false run_as_root in
  h ← get_handler resource run_as_root;
  match h with
  | None => raise (AssertionError None)
  | Some h =>
      let ctx := new_HandlerContext resource in
      ctx ← h_execute h ctx resource dry_run;
      finalize_context ctx ;;
      mret ctx
  end.

(** [Project.dryrun(resource, run_as_root=False)] *)
Definition dryrun (resource : Resource) (run_as_root : option bool)
  : M HandlerContext :=
  let run_as_root := default false run_as_root in
  deploy resource (Some true) (Some run_as_root).

(** [Project.deploy_resource(resource_type, status=deployed,
    run_as_root=False, **filter_args)].  The call [self.deploy(res,
    run_as_root)] passes [run_as_root] as the second positional argument. *)
Definition deploy_resource (resource_type : string)
    (status : option ResourceState) (run_as_root : option bool)
    (filter_args : list (string * Value)) : M Resource :=
  let status := default deployed status in
  let run_as_root := default false run_as_root in
  res ← get_resource resource_type filter_args;
  match res with
  | None =>
      raise (AssertionError
               (Some "No resource found of given type and filter args"))
  | Some res =>
      ctx ← deploy res (Some run_as_root) None;
      (if bool_decide (ctx_status ctx ≠ Some status) then
         emit (EvPrint PIncorrectStatus) ;;
         emit (EvPrint (PRequestedChanges (ctx_changes ctx))) ;;
         print_logs (ctx_logs ctx)
       else mret tt) ;;
      assert (bool_decide (ctx_status ctx = Some status)) None ;;
      finalize_context ctx ;;
      mret res
  end.

(** [Project.dryrun_resource(resource_type, status=deployed,
    run_as_root=False, **filter_args)] *)
Definition dryrun_resource (resource_type : string)
    (status : option ResourceState) (run_as_root : option bool)
    (filter_args : list (string * Value))
  : M (list (string * (Value * Value))) :=
  let status := default deployed status in
  let run_as_root := default false run_as_root in
  res ← get_resource resource_type filter_args;
  match res with
  | None =>
      raise (AssertionError
               (Some "No resource found of given type and filter args"))
  | Some res =>
      ctx ← dryrun res (Some run_as_root);
      assert (bool_decide (ctx_status ctx = Some dry)) None ;;
      mret (ctx_changes ctx)
  end.

(** [for key, blob in exporter._file_store.items(): self.add_blob(key, blob)] *)
Fixpoint add_blobs (items : list (string * Blob)) : M unit :=
  match items with
  | [] => mret tt
  | (key, blob) :: rest => add_blob key blob None ;; add_blobs rest
  end.

(** [Project.compile(main)] *)
Definition compile (main : string) : M unit :=
  emit (EvWriteMain main) ;;
  p ← get_self;
  match _capsys p with
  | None =>
      raise (AttributeError "'NoneType' object has no attribute 'readouterr'")
  | Some _ => emit EvReadOutErr
  end ;;
  c ← lift (do_compile fw main (_facts p));
  add_blobs (_file_store (c_exporter c)) ;;
  modify_self (fun p =>
    {| _test_project_dir := _test_project_dir p;
       _stdout := _stdout p;
       _stderr := _stderr p;
       types := Some (c_types c);
       version := Some (c_version c);
       resources := c_resources c;
       _exporter := Some (c_exporter c);
       _blobs := _blobs p;
       _facts := _facts p;
       _plugins := _plugins p;
       _capsys := _capsys p |}) ;;
  emit EvReadOutErr ;;
  modify_self (fun p =>
    {| _test_project_dir := _test_project_dir p;
       _stdout := Some (c_out c);
       _stderr := Some (c_err c);
       types := types p;
       version := version p;
       resources := resources p;
       _exporter := _exporter p;
       _blobs := _blobs p;
       _facts := _facts p;
       _plugins := _plugins p;
       _capsys := _capsys p |}).

End Facade.

(** ** Options, accessors and instances *)




(** [Project.get_stdout] and [Project.get_stderr] *)
Definition get_stdout : M (option string) :=
  p ← get_self; mret (_stdout p).

Definition get_stderr : M (option string) :=
  p ← get_self; mret (_stderr p).

(** [Project.get_plugins]: [dict(self._plugins)], a copy of the registry. *)
Definition get_plugins : M (gmap string PyObj) :=
  p ← get_self;
  match _plugins p with
  | None => raise (TypeError "'NoneType' object is not iterable")
  | Some plugins => mret plugins
  end.

(** What [DynamicProxy.return_value] wraps around a compiler object. *)
Inductive Proxy :=
  | DynamicProxy (instance : string).

(** [Project.get_instances(fortype="std::Entity")] *)
Definition get_instances (fortype : option string) : M (list Proxy) :=
  let fortype := default "std::Entity" fortype in
  p ← get_self;
  match types p with
  | None => raise (TypeError "'NoneType' object is not subscriptable")
  | Some types =>
      match types !! fortype with
      | None => raise (KeyError fortype)
      | Some allof => mret (map DynamicProxy allof)
      end
  end.

(** The [project] fixture: [project_shared.init(capsys)], then the same
    project object is handed to the test. *)
Definition project_fixture (capsys : CapSys) : M Project :=
  init capsys ;; get_self.

(** ** The project directory on disk

    [create_module] and [add_mock_file] work on the directory tree under the
    project directory.  A disk maps a path (the components joined by
    [os.path.join], each a plain name) to a directory or to a file with its
    content; the root is always a directory.  [os.mkdir] and [open(path,
    "w+")] fail as they do on a POSIX file system, and what an operation did
    before it failed stays done. *)
Inductive Node :=
  | Dir
  | File (content : string).

Inductive OSError :=
  | FileExistsError (path : list string)
  | FileNotFoundError (path : list string)
  | NotADirectoryError (path : list string)
  | IsADirectoryError (path : list string).

Definition node_at (d : gmap (list string) Node) (path : list string)
  : option Node :=
  match path with
  | [] => Some Dir
  | _ => d !! path
  end.

(** [os.path.exists(path)] *)
Definition os_path_exists (d : gmap (list string) Node) (path : list string)
  : bool :=
  match node_at d path with
  | Some _ => true
  | None => false
  end.

(** [os.mkdir(path)] *)
Definition os_mkdir (path : list string) (d : gmap (list string) Node)
  : option OSError * gmap (list string) Node :=
  match node_at d path with
  | Some _ => (Some (FileExistsError path), d)
  | None =>
      match node_at d (removelast path) with
      | None => (Some (FileNotFoundError path), d)
      | Some (File _) => (Some (NotADirectoryError path), d)
      | Some Dir => (None, <[path := Dir]> d)
      end
  end.

(** [with open(path, "w+") as fd: fd.write(content)] *)
Definition write_file (path : list string) (content : string)
    (d : gmap (list string) Node)
  : option OSError * gmap (list string) Node :=
  match node_at d path with
  | Some Dir => (Some (IsADirectoryError path), d)
  | _ =>
      match node_at d (removelast path) with
      | None => (Some (FileNotFoundError path), d)
      | Some (File _) => (Some (NotADirectoryError path), d)
      | Some Dir => (None, <[path := File content]> d)
      end
  end.

(** Statements in sequence: the first error ends the run. *)
Fixpoint do_all
    (ops : list (gmap (list string) Node
                 -> option OSError * gmap (list string) Node))
    (d : gmap (list string) Node)
  : option OSError * gmap (list string) Node :=
  match ops with
  | [] => (None, d)
  | op :: rest =>
      match op d with
      | (None, d') => do_all rest d'
      | (Some e, d') => (Some e, d')
      end
  end.

Definition newline : string :=
  String (Ascii.Ascii false true false true false false false false) "".

(** The text [create_module] writes to [module.yml]. *)
Definition unittest_module_yml : string :=
  "name: unittest" +:+ newline +:+ "version: 0.1" +:+ newline
  +:+ "license: Test License" +:+ newline +:+ "            ".

(** [Project.create_module(name, initcf="", initpy="")] *)
Definition create_module (p : Project) (name : string)
    (initcf initpy : option string)
  : gmap (list string) Node -> option OSError * gmap (list string) Node :=
  let initcf := default "" initcf in
  let initpy := default "" initpy in
  let module_dir := [_test_project_dir p; "libs"; name] in
  do_all
    [os_mkdir module_dir;
     os_mkdir (module_dir ++ ["model"]);
     os_mkdir (module_dir ++ ["files"]);
     os_mkdir (module_dir ++ ["templates"]);
     os_mkdir (module_dir ++ ["plugins"]);
     write_file (module_dir ++ ["model"; "_init.cf"]) initcf;
     write_file (module_dir ++ ["plugins"; "__init__.py"]) initpy;
     write_file (module_dir ++ ["module.yml"]) unittest_module_yml].

(** [Project.add_mock_file(subdir, name, content)] *)
Definition add_mock_file (p : Project) (subdir name content : string)
  : gmap (list string) Node -> option OSError * gmap (list string) Node :=
  let dir_name := [_test_project_dir p; "libs"; "unittest"; subdir] in
  do_all
    [fun d => if negb (os_path_exists d dir_name) then os_mkdir dir_name d
              else (None, d);
     write_file (dir_name ++ [name]) content].

(** ** Vocabulary of the properties *)

(** The calls a test makes between two [init]s. *)
Inductive Call :=
  | CallCompile (main : string)
  | CallAddFact (resource_id name : string) (value : Value)
  | CallAddBlob (key : string) (content : Blob)
      (allow_overwrite : option bool).

Definition run_call (fw : Framework) (c : Call) : M unit :=
  match c with
  | CallCompile main => compile fw main
  | CallAddFact resource_id name value => add_fact resource_id name value
  | CallAddBlob key content allow_overwrite =>
      add_blob key content allow_overwrite
  end.

(** The world after a sequence of calls, whether they returned or raised. *)
Fixpoint run_calls (fw : Framework) (cs : list Call) (w : World) : World :=
  match cs with
  | [] => w
  | c :: rest => run_calls fw rest (snd (run_call fw c w))
  end.

(** A resource matches when it is of the type and every filter attribute
    exists on it with the filter's value. *)
Definition matches (resource_type : string)
    (filter_args : list (string * Value)) (r : Resource) : Prop :=
  is_type r resource_type = true ∧
  ∀ arg value, (arg, value) ∈ filter_args → fields r !! arg = Some value.

(** The provider with the three callbacks of [get_handler] attached. *)
Definition wired (p : Provider) : Handler :=
  {| provider := p;
     get_file := fun x => get_blob x;
     stat_file := fun x => stat_blob x;
     upload_file := fun x y => add_blob x y None |}.

Definition agent_for (run_as_root : bool) : MockAgent :=
  if run_as_root then {| uri := "ssh://root@localhost" |}
  else {| uri := "local:" |}.

Definition log_events (evs : list Event) (w : World) : World :=
  {| self := self w; trace := trace w ++ evs |}.

(** The lines [print_log] writes for one log entry. *)
Definition log_prints (l : LogLine) : list Event :=
  [EvPrint (PLog (log_msg l));
   EvPrint (PKwargs
     (map (fun kv => fst kv +:+ ": " +:+ snd kv)
          (List.filter (fun kv => negb (String.eqb (fst kv) "traceback"))
                       (log_kwargs l))))]
  ++ match assoc "traceback" (log_kwargs l) with
     | Some tb => [EvPrint (PTraceback tb)]
     | None => []
     end.

Definition diagnostics (ctx : HandlerContext) : list Event :=
  EvPrint PIncorrectStatus :: EvPrint (PRequestedChanges (ctx_changes ctx))
  :: concat (map log_prints (ctx_logs ctx)).

(** Events that resolve or run a handler. *)
Definition is_deployment (ev : Event) : bool :=
  match ev with
  | EvOpenVersion _ | EvGetProvider _ _ | EvSetCache | EvExecute _ _ => true
  | _ => false
  end.

(** The files the loader imports: the [*.py] files of the plugin directory,
    in [glob] order. *)
Definition plugin_files (fs : FileSystem)
  : list (string * list (string * PyObj)) :=
  match get_module_info fs with
  | inr (module_dir, _) => glob_py fs (module_dir ++ ["plugins"])
  | inl _ => []
  end.

(** [self._facts[resource_id][name]], when both keys are present. *)
Definition fact_of (p : Project) (resource_id name : string) : option Value :=
  _facts p !! resource_id ≫= (.!! name).

(** The blob store after [self._blobs[key] = blob] for each item in turn. *)
Definition store_all (items : list (string * Blob)) (b : gmap string Blob)
  : gmap string Blob :=
  foldl (fun b kv => <[fst kv := snd kv]> b) b items.

(** The second project differs from the first at most in its blob store, and
    holds a blob under every key the first holds one under. *)
Definition only_blobs_grow (p p' : Project) : Prop :=
  p' = set_blobs (_blobs p') p ∧
  ∀ key, is_Some (_blobs p !! key) → is_Some (_blobs p' !! key).

(** A disk is a tree: whatever exists lies in a directory that exists. *)
Definition tree (d : gmap (list string) Node) : Prop :=
  ∀ path node, d !! path = Some node →
               path ≠ [] ∧ node_at d (removelast path) = Some Dir.


(** ** Concrete inputs *)

Module Examples.

Definition res_it : Resource :=
  {| id := {| entity_type := "testmodule::Resource"; agent_name := "a";
              attribute_value := "IT"; version_of := 1 |};
     fields := <["name" := VStr "IT"]> (<["key" := VStr "k"]>
               (<["value" := VStr "write"]> ∅)) |}.

Definition res_db : Resource :=
  {| id := {| entity_type := "testmodule::Resource"; agent_name := "a";
              attribute_value := "DB"; version_of := 1 |};
     fields := <["name" := VStr "DB"]> (<["key" := VStr "k"]> ∅) |}.

Definition res_file : Resource :=
  {| id := {| entity_type := "std::File"; agent_name := "a";
              attribute_value := "/etc/motd"; version_of := 1 |};
     fields := <["path" := VStr "/etc/motd"]> ∅ |}.

Definition payload : Blob := [Byte.x68; Byte.x69].
Definition payload' : Blob := [Byte.x62; Byte.x79; Byte.x65].

(** A handler that reports no changes on a dry run and uploads one file
    otherwise. *)
Definition prov : Provider :=
  {| execute := fun _ dry_run =>
       if dry_run then HDone (Some dry) [] []
       else HUploadFile "k" payload (HDone (Some deployed) [] []) |}.

Definition fw : Framework :=
  {| do_compile := fun _ _ =>
       inr {| c_types := ∅; c_version := 1;
              c_resources := [("r1", res_file); ("r2", res_db); ("r3", res_it)];
              c_exporter := {| _file_store := [("h", payload)] |};
              c_out := ""; c_err := "" |};
     get_provider := fun _ _ => inr prov;
     json_encode := fun _ => inr tt |}.

Definition project0 : Project :=
  {| _test_project_dir := "/tmp/p";
     _stdout := None; _stderr := None;
     types := None; version := None;
     resources := [];
     _exporter := None;
     _blobs := ∅; _facts := ∅;
     _plugins := Some ∅;
     _capsys := Some {| capsys_handle := 0 |} |}.

(** The project after compiling the three resources. *)
Definition project1 : Project :=
  {| _test_project_dir := "/tmp/p";
     _stdout := Some ""; _stderr := Some "";
     types := Some ∅; version := Some 1%Z;
     resources := [("r1", res_file); ("r2", res_db); ("r3", res_it)];
     _exporter := Some {| _file_store := [("h", payload)] |};
     _blobs := <["h" := payload]> ∅; _facts := ∅;
     _plugins := Some ∅;
     _capsys := Some {| capsys_handle := 0 |} |}.

Definition world0 : World := {| self := project0; trace := [] |}.
Definition world1 : World := {| self := project1; trace := [] |}.

(** A module directory [/home/mod] without a [plugins] directory. *)
Definition fs_no_plugins : FileSystem :=
  {| CURDIR := ["home"; "mod"; "tests"];
     path_exists := fun p => bool_decide (p = ["home"; "mod"; "module.yml"]);
     module_yml_name := inr "mod";
     glob_py := fun _ => [] |}.

(** The same with a [plugins] directory that has no [__init__.py]. *)
Definition fs_no_marker : FileSystem :=
  {| CURDIR := ["home"; "mod"; "tests"];
     path_exists := fun p =>
       bool_decide (p = ["home"; "mod"; "module.yml"])
       || bool_decide (p = ["home"; "mod"; "plugins"]);
     module_yml_name := inr "mod";
     glob_py := fun _ => [] |}.

(** A plugin package of two files that both define [helper]. *)
Definition fs_two_files : FileSystem :=
  {| CURDIR := ["home"; "mod"; "tests"];
     path_exists := fun p =>
       bool_decide (p = ["home"; "mod"; "module.yml"])
       || bool_decide (p = ["home"; "mod"; "plugins"])
       || bool_decide (p = ["home"; "mod"; "plugins"; "__init__.py"]);
     module_yml_name := inr "mod";
     glob_py := fun _ =>
       [("__init__.py",
          [("helper", PyFunction "__init__.helper");
           ("VERSION", PyData (VInt 3))]);
        ("extra.py",
          [("os", PyModule "os");
           ("helper", PyFunction "extra.helper");
           ("other", PyFunction "extra.other")])] |}.

(** The projects [Project(...)] constructs on these file systems. *)
Definition project_no_plugins : Project :=
  {| _test_project_dir := "/tmp/p";
     _stdout := None; _stderr := None;
     types := None; version := None;
     resources := [];
     _exporter := None;
     _blobs := ∅; _facts := ∅;
     _plugins := None;
     _capsys := None |}.

Definition project_two_files : Project :=
  {| _test_project_dir := "/tmp/p";
     _stdout := None; _stderr := None;
     types := None; version := None;
     resources := [];
     _exporter := None;
     _blobs := ∅; _facts := ∅;
     _plugins := Some (<["other" := PyFunction "extra.other"]>
                       (<["helper" := PyFunction "extra.helper"]> ∅));
     _capsys := None |}.

Definition world_two_files : World :=
  {| self := project_two_files; trace := [] |}.

(** A framework whose compiler rejects every model, whose provider lookup
    fails for every resource, and a provider that ends in [failed]. *)
Definition fw_failing : Framework :=
  {| do_compile := fun _ _ => inl (Exception "could not compile");
     get_provider := fun _ _ => inl (Exception "no provider");
     json_encode := fun _ => inr tt |}.

Definition prov_failing : Provider :=
  {| execute := fun _ _ =>
       HDone (Some failed) []
         [{| log_msg := "An error occurred";
             log_kwargs := [("resource", "r"); ("traceback", "Traceback")] |}]
  |}.

Definition fw_handler_fails : Framework :=
  {| do_compile := fun _ _ => inl (Exception "could not compile");
     get_provider := fun _ _ => inr prov_failing;
     json_encode := fun _ => inr tt |}.

(** A disk with the project directory [/tmp/p] and its [libs] directory. *)
Definition disk0 : gmap (list string) Node :=
  <[["/tmp/p"; "libs"] := Dir]> (<[["/tmp/p"] := Dir]> ∅).

End Examples.

(** ** Sanity checks on concrete inputs *)

Example compile_then_lookup :
  fst (get_resource "testmodule::Resource" [("name", VStr "IT")]
         (snd (compile Examples.fw "import testmodule" Examples.world0)))
  = inr (Some Examples.res_it).
Proof. vm_compute. reflexivity. Qed.

Example compile_gives_project1 :
  self (snd (compile Examples.fw "import testmodule" Examples.world0))
  = Examples.project1.
Proof. vm_compute. reflexivity. Qed.

Example deploy_resource_runs :
  fst (deploy_resource Examples.fw "testmodule::Resource" None None []
         Examples.world1)
  = inr Examples.res_db.
Proof. vm_compute. reflexivity. Qed.

Example load_two_files :
  (fun r => match r with
            | inr (Some reg) => reg !! "helper"
            | _ => None
            end) (_load_plugins Examples.fs_two_files)
  = Some (PyFunction "extra.helper").
Proof. vm_compute. reflexivity. Qed.

(** Two resources of the type carry [key = "k"]; the lookup returns the one
    that comes first in the mapping. *)
Example first_of_two_matches :
  fst (get_resource "testmodule::Resource" [("key", VStr "k")]
         Examples.world1) = inr (Some Examples.res_db)
  ∧ fst (get_resource "testmodule::Resource" [("value", VStr "write")]
           Examples.world1) = inr (Some Examples.res_it)
  ∧ fst (get_resource "testmodule::Resource" [("path", VStr "/etc/motd")]
           Examples.world1) = inr None.
Proof. vm_compute. repeat split; reflexivity. Qed.

(** * Properties *)

(** ** Resource lookup *)

Lemma apply_filter_true filter_args r :
  apply_filter filter_args r = true ↔
  ∀ arg value, (arg, value) ∈ filter_args → fields r !! arg = Some value.
Proof.
  induction filter_args as [|[a v] rest IH]; simpl.
  - split; [|done]. intros _ arg value Hin. inversion Hin.
  - unfold hasattr, getattr, py_ne.
    destruct (fields r !! a) as [x|] eqn:Ha; simpl.
    + case_bool_decide as Hne.
      * split; [done|]. intros H. specialize (H a v (list_elem_of_here _ _)).
        congruence.
      * assert (x = v) as -> by (destruct (decide (x = v)); [done|contradiction]).
        rewrite IH. split.
        -- intros H arg value Hin. apply elem_of_cons in Hin as [Heq|Hin].
           ++ by inversion Heq; subst.
           ++ by apply H.
        -- intros H arg value Hin. apply H. by apply list_elem_of_further.
    + split; [done|]. intros H. specialize (H a v (list_elem_of_here _ _)).
      congruence.
Qed.

Lemma matches_dec resource_type filter_args r :
  matches resource_type filter_args r ↔
  is_type r resource_type && apply_filter filter_args r = true.
Proof.
  unfold matches. rewrite andb_true_iff, apply_filter_true. done.
Qed.

Lemma first_match_step r rest resource_type filter_args :
  first_match (r :: rest) resource_type filter_args =
  if is_type r resource_type && apply_filter filter_args r then Some r
  else first_match rest resource_type filter_args.
Proof.
  simpl. destruct (is_type r resource_type); simpl; [|done].
  by destruct (apply_filter filter_args r).
Qed.

Lemma first_match_Some vs resource_type filter_args r :
  first_match vs resource_type filter_args = Some r ↔
  ∃ i, vs !! i = Some r ∧ matches resource_type filter_args r ∧
       ∀ j r', j < i → vs !! j = Some r' →
               ¬ matches resource_type filter_args r'.
Proof.
  induction vs as [|x rest IH].
  - simpl. split; [done|]. intros (i & Hi & _). by destruct i.
  - rewrite first_match_step.
    destruct (is_type x resource_type && apply_filter filter_args x) eqn:Hx.
    + split.
      * intros [= ->]. exists 0. split; [done|]. split; [by apply matches_dec|].
        intros j r' Hj. lia.
      * intros (i & Hi & Hm & Hfirst). destruct i as [|i].
        -- simpl in Hi. congruence.
        -- exfalso. apply (Hfirst 0 x); [lia|done|by apply matches_dec].
    + rewrite IH. split.
      * intros (i & Hi & Hm & Hfirst). exists (S i). split; [done|].
        split; [done|]. intros j r' Hj Hl. destruct j as [|j].
        -- simpl in Hl. injection Hl as <-. rewrite matches_dec. congruence.
        -- apply (Hfirst j); [lia|done].
      * intros (i & Hi & Hm & Hfirst). destruct i as [|i].
        -- simpl in Hi. injection Hi as ->. apply matches_dec in Hm. congruence.
        -- exists i. split; [done|]. split; [done|].
           intros j r' Hj Hl. apply (Hfirst (S j)); [lia|done].
Qed.

Lemma first_match_None vs resource_type filter_args :
  first_match vs resource_type filter_args = None ↔
  ∀ r, r ∈ vs → ¬ matches resource_type filter_args r.
Proof.
  induction vs as [|x rest IH].
  - simpl. split; [|done]. intros _ r Hin. inversion Hin.
  - rewrite first_match_step.
    destruct (is_type x resource_type && apply_filter filter_args x) eqn:Hx.
    + split; [done|]. intros H. exfalso.
      apply (H x); [apply list_elem_of_here|by apply matches_dec].
    + rewrite IH. split.
      * intros H r Hin. apply elem_of_cons in Hin as [->|Hin].
        -- rewrite matches_dec. congruence.
        -- by apply H.
      * intros H r Hin. apply H. by apply list_elem_of_further.
Qed.

(** C4: [get_resource] returns the first resource, in the iteration order of
    the resources mapping, that is of the given type and carries every filter
    attribute with the filter's value; a resource lacking a filter attribute
    is never returned; when no resource matches it returns [None].  The call
    never raises and leaves the project untouched. *)
Theorem get_resource_first_match (w : World) (resource_type : string)
    (filter_args : list (string * Value)) :
  ∃ found : option Resource,
    get_resource resource_type filter_args w = (inr found, w) ∧
    (∀ r, found = Some r ↔
       ∃ i, values (resources (self w)) !! i = Some r ∧
            matches resource_type filter_args r ∧
            ∀ j r', j < i → values (resources (self w)) !! j = Some r' →
                    ¬ matches resource_type filter_args r') ∧
    (∀ r arg value, (arg, value) ∈ filter_args → hasattr r arg = false →
                    found ≠ Some r) ∧
    (found = None ↔
       ∀ r, r ∈ values (resources (self w)) →
            ¬ matches resource_type filter_args r).
Proof.
  exists (first_match (values (resources (self w))) resource_type filter_args).
  split; [reflexivity|]. split; [|split].
  - intros r. apply first_match_Some.
  - intros r arg value Hin Hno Hfound.
    apply first_match_Some in Hfound as (_ & _ & [_ Hm] & _).
    specialize (Hm arg value Hin). unfold hasattr in Hno.
    rewrite Hm in Hno. discriminate.
  - apply first_match_None.
Qed.

(** ** The blob store *)

Lemma add_blob_unfold key content allow_overwrite w :
  add_blob key content allow_overwrite w =
  if contains (_blobs (self w)) key && negb (default true allow_overwrite)
  then (inl (Exception ("Key " +:+ key +:+ " already stored in blobs")), w)
  else (inr tt,
        {| self := set_blobs (<[key := content]> (_blobs (self w))) (self w);
           trace := trace w |}).
Proof.
  unfold add_blob, get_self, modify_self, mbind, M_bind, bind, raise. simpl.
  by destruct (contains (_blobs (self w)) key && _).
Qed.

(** ** Handler resolution *)

Section FacadeFacts.

Context (fw : Framework).

(** What [get_handler] does, by the outcome of the provider lookup: both the
    [except Exception] branch, which raises again, and an exception the
    clause does not catch leave with the exception of the lookup. *)
Lemma get_handler_unfold resource run_as_root w :
  get_handler fw resource run_as_root w =
  let w1 := log_events [EvOpenVersion (version_of (id resource));
                        EvGetProvider (agent_for run_as_root) resource] w in
  match get_provider fw (agent_for run_as_root) resource with
  | inl e => (inl e, w1)
  | inr p => (inr (Some (wired p)), log_events [EvSetCache] w1)
  end.
Proof.
  unfold get_handler, get_handler_body, call, seq, stmt, try_except, lift,
    emit, mbind, M_bind, bind, mret, M_ret, ret, raise, log_events, agent_for,
    wired.
  destruct w as [p t]; simpl.
  destruct run_as_root; simpl;
    rewrite <- !app_assoc; simpl;
    (destruct (get_provider fw _ resource) as [e|pr]; simpl;
     [destruct e; reflexivity | reflexivity]).
Qed.

(** The callbacks only touch the blob store: a handler run adds nothing to
    the trace. *)
Lemma run_handler_trace p r w :
  trace (snd (run_handler (wired p) r w)) = trace w.
Proof.
  revert w. induction r as [st chg lg|e|key k IH|key k IH|key content k IH];
    intros w; simpl.
  - reflexivity.
  - reflexivity.
  - destruct (get_blob key w) as [res w'] eqn:Hg. rewrite IH.
    unfold get_blob, get_self, mbind, M_bind, bind, mret, M_ret, ret, raise
      in Hg.
    destruct (_blobs (self w) !! key); by inversion Hg.
  - unfold mbind, M_bind, bind, stat_blob, get_self, mret, M_ret, ret.
    apply IH.
  - unfold mbind, M_bind, bind. rewrite add_blob_unfold. simpl.
    rewrite andb_false_r, IH. reflexivity.
Qed.

Lemma deploy_unfold resource dry_run run_as_root w :
  deploy fw resource dry_run run_as_root w =
  let d := default false dry_run in
  let agent := agent_for (default false run_as_root) in
  let w1 := log_events [EvOpenVersion (version_of (id resource));
                        EvGetProvider agent resource] w in
  match get_provider fw agent resource with
  | inl e => (inl e, w1)
  | inr p =>
      match run_handler (wired p) (execute p resource d)
              (log_events [EvSetCache; EvExecute resource d] w1) with
      | (inl e, w3) => (inl e, w3)
      | (inr (st, chg, lg), w3) =>
          match json_encode fw lg with
          | inl e => (inl e, log_events [EvJsonEncode lg] w3)
          | inr _ =>
              (inr {| ctx_resource := resource; ctx_status := st;
                      ctx_changes := chg; ctx_logs := lg |},
               log_events [EvJsonEncode lg] w3)
          end
      end
  end.
Proof.
  unfold deploy. cbv zeta.
  unfold mbind at 1. unfold M_bind at 1. unfold bind at 1.
  rewrite get_handler_unfold. cbv zeta.
  destruct (get_provider fw _ resource) as [e|p]; [reflexivity|].
  unfold h_execute, finalize_context, lift, emit, mbind, M_bind, bind, mret,
    M_ret, ret, log_events; simpl.
  rewrite <- !app_assoc; simpl.
  destruct (run_handler (wired p) _ _) as [[e|[[st chg] lg]] w3]; simpl;
    [reflexivity|].
  destruct (json_encode fw lg) as [e|[]]; reflexivity.
Qed.

(** C8: [get_handler] never reaches its [close_version] call.  It opens the
    cache version, and then either leaves with [return p] (the provider it
    resolved, with the callbacks attached) or with the exception of the
    provider lookup; it never falls through to the end, so it never returns
    [None] and no [close_version] is recorded. *)
Theorem get_handler_never_closes_version (resource : Resource)
    (run_as_root : bool) (w : World) :
  ∃ evs,
    trace (snd (get_handler fw resource run_as_root w))
    = trace w ++ EvOpenVersion (version_of (id resource)) :: evs ∧
    (∀ v, EvCloseVersion v ∉ evs) ∧
    match get_provider fw (agent_for run_as_root) resource with
    | inr p =>
        fst (get_handler fw resource run_as_root w) = inr (Some (wired p))
    | inl e => fst (get_handler fw resource run_as_root w) = inl e
    end.
Proof.
  rewrite get_handler_unfold. cbv zeta.
  destruct (get_provider fw _ resource) as [e|p]; simpl.
  - exists [EvGetProvider (agent_for run_as_root) resource].
    split; [reflexivity|]. split; [|reflexivity].
    intros v Hin. apply elem_of_cons in Hin as [Heq|Hin]; [discriminate|].
    by apply elem_of_nil in Hin.
  - exists [EvGetProvider (agent_for run_as_root) resource; EvSetCache].
    split; [by rewrite <- app_assoc|]. split; [|reflexivity].
    intros v Hin. repeat (apply elem_of_cons in Hin as [Heq|Hin];
                          [discriminate|]).
    by apply elem_of_nil in Hin.
Qed.

End FacadeFacts.

(** ** Deploying a resource found by type and filters *)

Lemma log_events_app evs1 evs2 w :
  log_events evs2 (log_events evs1 w) = log_events (evs1 ++ evs2) w.
Proof. unfold log_events; simpl. by rewrite app_assoc. Qed.

Lemma log_events_nil w : log_events [] w = w.
Proof. destruct w. unfold log_events; simpl. by rewrite app_nil_r. Qed.

Lemma print_logs_unfold ls w :
  print_logs ls w = (inr tt, log_events (concat (map log_prints ls)) w).
Proof.
  revert w. induction ls as [|l rest IH]; intros w; simpl.
  - by rewrite log_events_nil.
  - unfold mbind, M_bind, bind, print_log, emit, mret, M_ret, ret,
      log_prints, log_events; simpl.
    destruct (assoc "traceback" (log_kwargs l)); simpl; rewrite IH;
      unfold log_events; simpl; rewrite <- !app_assoc; reflexivity.
Qed.

Lemma diagnostics_no_deployment ctx :
  Forall (fun ev => is_deployment ev = false) (diagnostics ctx).
Proof.
  unfold diagnostics. repeat constructor.
  induction (ctx_logs ctx) as [|l rest IH]; simpl; [constructor|].
  unfold log_prints at 1. repeat constructor. apply Forall_app. split; [|done].
  destruct (assoc "traceback" (log_kwargs l)); repeat constructor.
Qed.

Section DeployFacts.

Context (fw : Framework).

Lemma deploy_returns resource dry_run run_as_root w ctx w' :
  deploy fw resource dry_run run_as_root w = (inr ctx, w') →
  json_encode fw (ctx_logs ctx) = inr tt ∧ ctx_resource ctx = resource.
Proof.
  rewrite deploy_unfold. cbv zeta.
  destruct (get_provider fw _ resource) as [e|p]; [discriminate|].
  destruct (run_handler (wired p) _ _) as [[e|[[st chg] lg]] w3];
    [discriminate|].
  destruct (json_encode fw lg) as [e|[]] eqn:Hj; [discriminate|].
  intros [= <- <-]. done.
Qed.

(** [deploy_resource], by the outcome of the lookup, of [deploy], and of the
    status comparison. *)
Lemma deploy_resource_unfold resource_type status run_as_root filter_args w :
  deploy_resource fw resource_type status run_as_root filter_args w =
  match first_match (values (resources (self w))) resource_type filter_args
  with
  | None =>
      (inl (AssertionError
              (Some "No resource found of given type and filter args")), w)
  | Some res =>
      match deploy fw res (Some (default false run_as_root)) None w with
      | (inl e, w') => (inl e, w')
      | (inr ctx, w') =>
          if bool_decide (ctx_status ctx = Some (default deployed status))
          then (inr res, log_events [EvJsonEncode (ctx_logs ctx)] w')
          else (inl (AssertionError None), log_events (diagnostics ctx) w')
      end
  end.
Proof.
  unfold deploy_resource, get_resource, get_self. cbv zeta.
  unfold mbind at 1 2. unfold M_bind at 1 2. unfold bind at 1 2. simpl.
  destruct (first_match _ resource_type filter_args) as [res|]; [|reflexivity].
  unfold mbind at 1. unfold M_bind at 1. unfold bind at 1.
  destruct (deploy fw res _ None w) as [[e|ctx] w'] eqn:Hd; [reflexivity|].
  apply deploy_returns in Hd as [Hj _].
  unfold mbind, M_bind, bind, finalize_context, assert, emit, lift, mret,
    M_ret, ret, raise.
  destruct (decide (ctx_status ctx = Some (default deployed status))) as [Hs|Hs].
  - rewrite (bool_decide_eq_false_2 (ctx_status ctx ≠ _)) by (by intros Hne).
    rewrite bool_decide_eq_true_2 by done. simpl. rewrite Hj. reflexivity.
  - rewrite (bool_decide_eq_true_2 (ctx_status ctx ≠ _)) by done.
    rewrite bool_decide_eq_false_2 by done. simpl.
    rewrite print_logs_unfold. simpl. unfold log_events, diagnostics; simpl.
    rewrite <- !app_assoc. reflexivity.
Qed.

Lemma dryrun_resource_unfold resource_type status run_as_root filter_args w :
  dryrun_resource fw resource_type status run_as_root filter_args w =
  match first_match (values (resources (self w))) resource_type filter_args
  with
  | None =>
      (inl (AssertionError
              (Some "No resource found of given type and filter args")), w)
  | Some res =>
      match dryrun fw res (Some (default false run_as_root)) w with
      | (inl e, w') => (inl e, w')
      | (inr ctx, w') =>
          if bool_decide (ctx_status ctx = Some dry)
          then (inr (ctx_changes ctx), w')
          else (inl (AssertionError None), w')
      end
  end.
Proof.
  unfold dryrun_resource, get_resource, get_self. cbv zeta.
  unfold mbind at 1 2. unfold M_bind at 1 2. unfold bind at 1 2. simpl.
  destruct (first_match _ resource_type filter_args) as [res|]; [|reflexivity].
  unfold mbind at 1. unfold M_bind at 1. unfold bind at 1.
  destruct (dryrun fw res _ w) as [[e|ctx] w']; [reflexivity|].
  unfold mbind, M_bind, bind, assert, mret, M_ret, ret, raise.
  by case_bool_decide.
Qed.

End DeployFacts.

Section DeployTrace.

Context (fw : Framework).

(** The events of one [deploy]: the version is opened and the provider looked
    up for the agent; when that succeeds the handler is executed once, and
    whatever follows is no handler call. *)
Lemma deploy_trace resource dry_run run_as_root w :
  ∃ tail,
    trace (snd (deploy fw resource dry_run run_as_root w))
    = trace w ++ EvOpenVersion (version_of (id resource))
        :: EvGetProvider (agent_for (default false run_as_root)) resource
        :: tail ∧
    match get_provider fw (agent_for (default false run_as_root)) resource with
    | inl _ => tail = []
    | inr _ =>
        ∃ rest, tail = EvSetCache
                  :: EvExecute resource (default false dry_run) :: rest ∧
                Forall (fun ev => is_deployment ev = false) rest
    end.
Proof.
  rewrite deploy_unfold. cbv zeta.
  destruct (get_provider fw _ resource) as [e|p].
  - exists []. done.
  - pose proof (run_handler_trace p
      (execute p resource (default false dry_run))
      (log_events [EvSetCache; EvExecute resource (default false dry_run)]
         (log_events [EvOpenVersion (version_of (id resource));
                      EvGetProvider (agent_for (default false run_as_root))
                        resource] w))) as Ht.
    destruct (run_handler (wired p) _ _) as [[e|[[st chg] lg]] w3];
      simpl in Ht.
    + eexists. simpl. rewrite Ht, <- app_assoc. split; [reflexivity|].
      exists []. done.
    + destruct (json_encode fw lg) as [e|[]]; simpl; rewrite Ht;
        rewrite <- !app_assoc; simpl;
        (eexists; split; [reflexivity|]);
        exists [EvJsonEncode lg]; (split; [reflexivity|]);
        by repeat constructor.
Qed.

(** What [deploy_resource] adds to the trace after a resource was found. *)
Lemma deploy_resource_trace resource_type status run_as_root filter_args w
    res :
  first_match (values (resources (self w))) resource_type filter_args
  = Some res →
  ∃ tail,
    trace (snd (deploy_resource fw resource_type status run_as_root
                  filter_args w))
    = trace w ++ EvOpenVersion (version_of (id res))
        :: EvGetProvider {| uri := "local:" |} res :: tail ∧
    match get_provider fw {| uri := "local:" |} res with
    | inl _ => tail = []
    | inr _ =>
        ∃ rest, tail = EvSetCache
                  :: EvExecute res (default false run_as_root) :: rest ∧
                Forall (fun ev => is_deployment ev = false) rest
    end.
Proof.
  intros Hfound. rewrite deploy_resource_unfold, Hfound.
  destruct (deploy_trace res (Some (default false run_as_root)) None w)
    as (tail & Ht & Htail).
  simpl in Ht, Htail. unfold agent_for in Ht, Htail.
  destruct (deploy fw res _ None w) as [[e|ctx] w'] eqn:Hd; simpl in Ht.
  - exists tail. done.
  - assert (∃ p, get_provider fw {| uri := "local:" |} res = inr p)
      as [p Hg].
    { rewrite deploy_unfold in Hd. cbv zeta in Hd. unfold agent_for in Hd.
      simpl in Hd. destruct (get_provider fw _ res); [discriminate|by eauto]. }
    rewrite Hg in Htail |- *. destruct Htail as (rest & -> & Hrest).
    case_bool_decide; simpl; rewrite Ht, <- app_assoc; simpl;
      (eexists; split; [reflexivity|]);
      (eexists; split; [reflexivity|]);
      (apply Forall_app; split; [done|]).
    + by repeat constructor.
    + apply diagnostics_no_deployment.
Qed.

End DeployTrace.

Section DeployClaims.

Context (fw : Framework).

(** C1: when [deploy_resource] finds a resource, its [run_as_root] argument
    reaches [deploy] as [dry_run]: the provider is looked up for the agent
    ["local:"] only (never for root), and the handler, when resolved, is
    executed on the found resource with [dry_run] equal to [run_as_root]. *)
Theorem deploy_resource_run_as_root_is_dry_run (resource_type : string)
    (status : option ResourceState) (run_as_root : option bool)
    (filter_args : list (string * Value)) (w : World) (res : Resource) :
  fst (get_resource resource_type filter_args w) = inr (Some res) →
  ∃ evs,
    trace (snd (deploy_resource fw resource_type status run_as_root
                  filter_args w)) = trace w ++ evs ∧
    EvGetProvider {| uri := "local:" |} res ∈ evs ∧
    (∀ agent r, EvGetProvider agent r ∈ evs →
                agent = {| uri := "local:" |} ∧ r = res) ∧
    (∀ r d, EvExecute r d ∈ evs →
            r = res ∧ d = default false run_as_root) ∧
    (∀ p, get_provider fw {| uri := "local:" |} res = inr p →
          EvExecute res (default false run_as_root) ∈ evs).
Proof.
  intros Hfound. simpl in Hfound. injection Hfound as Hfound.
  destruct (deploy_resource_trace fw resource_type status run_as_root
              filter_args w res Hfound) as (tail & Ht & Htail).
  eexists. split; [exact Ht|].
  split; [apply list_elem_of_further, list_elem_of_here|].
  destruct (get_provider fw _ res) as [e|p].
  - subst tail. split; [|split].
    + intros agent r Hin.
      apply elem_of_cons in Hin as [Heq|Hin]; [discriminate|].
      apply elem_of_cons in Hin as [Heq|Hin]; [by injection Heq as -> ->|].
      by apply elem_of_nil in Hin.
    + intros r d Hin.
      repeat (apply elem_of_cons in Hin as [Heq|Hin]; [discriminate|]).
      by apply elem_of_nil in Hin.
    + intros p [=].
  - destruct Htail as (rest & -> & Hrest).
    rewrite Forall_forall in Hrest. split; [|split].
    + intros agent r Hin.
      apply elem_of_cons in Hin as [Heq|Hin]; [discriminate|].
      apply elem_of_cons in Hin as [Heq|Hin]; [by injection Heq as -> ->|].
      repeat (apply elem_of_cons in Hin as [Heq|Hin]; [discriminate|]).
      apply Hrest in Hin. discriminate.
    + intros r d Hin.
      repeat (apply elem_of_cons in Hin as [Heq|Hin];
              [first [discriminate | by injection Heq as -> ->]|]).
      apply Hrest in Hin. discriminate.
    + intros _ _. do 3 apply list_elem_of_further. apply list_elem_of_here.
Qed.

(** C5: when no resource of the type satisfies the filters, [deploy_resource]
    and [dryrun_resource] raise the assertion error of the lookup and nothing
    else happens: the project (blob store, fact store and every other field)
    and the trace are as before, so no handler was resolved or executed. *)
Theorem deploy_resource_no_match_raises (resource_type : string)
    (status : option ResourceState) (run_as_root : option bool)
    (filter_args : list (string * Value)) (w : World) :
  (∀ r, r ∈ values (resources (self w)) →
        ¬ matches resource_type filter_args r) →
  deploy_resource fw resource_type status run_as_root filter_args w
  = (inl (AssertionError
            (Some "No resource found of given type and filter args")), w) ∧
  dryrun_resource fw resource_type status run_as_root filter_args w
  = (inl (AssertionError
            (Some "No resource found of given type and filter args")), w).
Proof.
  intros Hnone. apply first_match_None in Hnone.
  rewrite deploy_resource_unfold, dryrun_resource_unfold, Hnone. done.
Qed.

(** C9: when a resource is found, [deploy_resource] can only return that
    resource, and does return it whenever [deploy] returns a context whose
    status is the expected one ([deployed] when no status is given);
    [dryrun_resource] compares the status of the context with [dry], whatever
    its status argument is, returns the change-set of the context when they
    agree and raises an assertion error otherwise. *)
Theorem deploy_resource_returns_resource (resource_type : string)
    (status : option ResourceState) (run_as_root : option bool)
    (filter_args : list (string * Value)) (w : World) (res : Resource) :
  fst (get_resource resource_type filter_args w) = inr (Some res) →
  (∀ r, fst (deploy_resource fw resource_type status run_as_root
               filter_args w) = inr r → r = res) ∧
  (∀ ctx w',
     deploy fw res (Some (default false run_as_root)) None w = (inr ctx, w') →
     ctx_status ctx = Some (default deployed status) →
     fst (deploy_resource fw resource_type status run_as_root filter_args w)
     = inr res) ∧
  (∀ ctx w',
     dryrun fw res (Some (default false run_as_root)) w = (inr ctx, w') →
     dryrun_resource fw resource_type status run_as_root filter_args w
     = (if bool_decide (ctx_status ctx = Some dry)
        then inr (ctx_changes ctx) else inl (AssertionError None), w')) ∧
  (∀ e w',
     dryrun fw res (Some (default false run_as_root)) w = (inl e, w') →
     dryrun_resource fw resource_type status run_as_root filter_args w
     = (inl e, w')) ∧
  (∀ status',
     dryrun_resource fw resource_type status' run_as_root filter_args w
     = dryrun_resource fw resource_type status run_as_root filter_args w).
Proof.
  intros Hfound. simpl in Hfound. injection Hfound as Hfound.
  split; [|split; [|split; [|split]]].
  - intros r. rewrite deploy_resource_unfold, Hfound.
    destruct (deploy fw res _ None w) as [[e|ctx] w']; [discriminate|].
    case_bool_decide; simpl; congruence.
  - intros ctx w' Hd Hs. rewrite deploy_resource_unfold, Hfound, Hd.
    by rewrite bool_decide_eq_true_2.
  - intros ctx w' Hd. rewrite dryrun_resource_unfold, Hfound, Hd.
    by case_bool_decide.
  - intros e w' Hd. by rewrite dryrun_resource_unfold, Hfound, Hd.
  - intros status'. by rewrite !dryrun_resource_unfold.
Qed.

(** C10: [dryrun(r, b)] is [deploy(r, True, b)], also when [b] is omitted:
    the same context or exception and the same final world (project state and
    trace). *)
Theorem dryrun_is_deploy_with_dry_run (r : Resource)
    (run_as_root : option bool) (w : World) :
  dryrun fw r run_as_root w = deploy fw r (Some true) run_as_root w.
Proof.
  unfold dryrun. cbv zeta. rewrite !deploy_unfold. reflexivity.
Qed.

End DeployClaims.

Lemma deploy_resource_run_as_root_is_dry_run_witness :
  fst (get_resource "testmodule::Resource" [("name", VStr "IT")]
         Examples.world1) = inr (Some Examples.res_it) ∧
  ∃ evs,
    trace (snd (deploy_resource Examples.fw "testmodule::Resource" None
                  (Some true) [("name", VStr "IT")] Examples.world1))
    = trace Examples.world1 ++ evs ∧
    EvGetProvider {| uri := "local:" |} Examples.res_it ∈ evs ∧
    (∀ agent r, EvGetProvider agent r ∈ evs →
                agent = {| uri := "local:" |} ∧ r = Examples.res_it) ∧
    (∀ r d, EvExecute r d ∈ evs →
            r = Examples.res_it ∧ d = default false (Some true)) ∧
    (∀ p, get_provider Examples.fw {| uri := "local:" |} Examples.res_it
          = inr p →
          EvExecute Examples.res_it (default false (Some true)) ∈ evs).
Proof.
  split; [vm_compute; reflexivity|].
  apply (deploy_resource_run_as_root_is_dry_run Examples.fw
           "testmodule::Resource" None (Some true) [("name", VStr "IT")]
           Examples.world1 Examples.res_it).
  vm_compute. reflexivity.
Defined.

Lemma deploy_resource_no_match_raises_witness :
  (∀ r, r ∈ values (resources (self Examples.world1)) →
        ¬ matches "std::Service" [("name", VStr "IT")] r) ∧
  deploy_resource Examples.fw "std::Service" None None [("name", VStr "IT")]
    Examples.world1
  = (inl (AssertionError
            (Some "No resource found of given type and filter args")),
     Examples.world1) ∧
  dryrun_resource Examples.fw "std::Service" None None [("name", VStr "IT")]
    Examples.world1
  = (inl (AssertionError
            (Some "No resource found of given type and filter args")),
     Examples.world1).
Proof.
  assert (∀ r, r ∈ values (resources (self Examples.world1)) →
               ¬ matches "std::Service" [("name", VStr "IT")] r) as Hnone.
  { apply first_match_None. vm_compute. reflexivity. }
  split; [exact Hnone|].
  exact (deploy_resource_no_match_raises Examples.fw "std::Service" None None
           [("name", VStr "IT")] Examples.world1 Hnone).
Defined.

Lemma deploy_resource_returns_resource_witness :
  fst (get_resource "testmodule::Resource" [("name", VStr "IT")]
         Examples.world1) = inr (Some Examples.res_it) ∧
  fst (deploy_resource Examples.fw "testmodule::Resource" None None
         [("name", VStr "IT")] Examples.world1) = inr Examples.res_it ∧
  fst (dryrun_resource Examples.fw "testmodule::Resource" (Some failed) None
         [("name", VStr "IT")] Examples.world1) = inr [].
Proof.
  assert (fst (get_resource "testmodule::Resource" [("name", VStr "IT")]
                 Examples.world1) = inr (Some Examples.res_it)) as Hfound.
  { vm_compute. reflexivity. }
  split; [exact Hfound|].
  destruct (deploy_resource_returns_resource Examples.fw
              "testmodule::Resource" None None [("name", VStr "IT")]
              Examples.world1 Examples.res_it Hfound)
    as (_ & Hdeploy & _).
  destruct (deploy_resource_returns_resource Examples.fw
              "testmodule::Resource" (Some failed) None [("name", VStr "IT")]
              Examples.world1 Examples.res_it Hfound)
    as (_ & _ & Hdry & _).
  split.
  - eapply Hdeploy; vm_compute; reflexivity.
  - erewrite Hdry; [|vm_compute; reflexivity]. vm_compute. reflexivity.
Defined.

(** ** Resetting the project *)

Example calls_change_state :
  let w := run_calls Examples.fw
             [CallAddFact "r1" "ip" (VStr "10.0.0.1");
              CallCompile "import testmodule";
              CallAddBlob "b" Examples.payload' None] Examples.world0 in
  length (resources (self w)) = 3 ∧
  _blobs (self w) !! "h" = Some Examples.payload ∧
  _blobs (self w) !! "b" = Some Examples.payload' ∧
  _facts (self w) !! "r1" = Some {["ip" := VStr "10.0.0.1"]} ∧
  version (self w) = Some 1%Z.
Proof. vm_compute. repeat split; reflexivity. Qed.

(** C3: after [init(capsys)] the compile and deploy state is reset: [types]
    and [version] are [None], and the resources, the blob store and the fact
    store are empty, whatever the project was and whatever calls of [compile],
    [add_fact] and [add_blob] came before.  [init] itself never raises. *)
Theorem init_resets_state (fw : Framework) (calls : list Call) (w : World)
    (capsys : CapSys) :
  let r := init capsys (run_calls fw calls w) in
  fst r = inr tt ∧
  types (self (snd r)) = None ∧
  version (self (snd r)) = None ∧
  resources (self (snd r)) = [] ∧
  _blobs (self (snd r)) = ∅ ∧
  _facts (self (snd r)) = ∅.
Proof.
  generalize (run_calls fw calls w). intros w'.
  unfold init, modify_self, emit, mbind, M_bind, bind. simpl.
  repeat split.
Qed.

(** ** Overwriting blobs *)

(** C6 as stated fails: on a key that is already stored, [add_blob(key,
    content)] with no third argument does not raise and replaces the stored
    payload. *)
Lemma add_blob_default_overwrites :
  ¬ (contains (_blobs (self Examples.world1)) "h" = true →
     (None : option bool) ≠ Some true →
     (∃ e, fst (add_blob "h" Examples.payload' None Examples.world1) = inl e) ∧
     _blobs (self (snd (add_blob "h" Examples.payload' None Examples.world1)))
       !! "h" = Some Examples.payload).
Proof.
  intros H. destruct H as [[e He] _]; [vm_compute; reflexivity|done|].
  vm_compute in He. discriminate He.
Qed.

(** C6, amended: [add_blob(key, content, allow_overwrite)] raises exactly when
    the key is stored and the caller passed [allow_overwrite=False], and then
    the world is unchanged; in every other case (key not stored, or the
    argument omitted or [True]) it returns, [content] is stored under the key
    and every other key and field is as before. *)
Theorem add_blob_overwrite_policy (key : string) (content : Blob)
    (allow_overwrite : option bool) (w : World) :
  (is_Some (_blobs (self w) !! key) ∧ allow_overwrite = Some false →
   add_blob key content allow_overwrite w
   = (inl (Exception ("Key " +:+ key +:+ " already stored in blobs")), w)) ∧
  (_blobs (self w) !! key = None ∨ allow_overwrite ≠ Some false →
   ∃ w', add_blob key content allow_overwrite w = (inr tt, w') ∧
         w' = {| self := set_blobs (<[key := content]> (_blobs (self w)))
                           (self w);
                 trace := trace w |} ∧
         _blobs (self w') !! key = Some content ∧
         ∀ k, k ≠ key → _blobs (self w') !! k = _blobs (self w) !! k).
Proof.
  rewrite add_blob_unfold. unfold contains. split.
  - intros [[b Hb] ->]. by rewrite Hb.
  - intros Hcase.
    assert ((match _blobs (self w) !! key with
             | Some _ => true | None => false end)
            && negb (default true allow_overwrite) = false) as ->.
    { destruct Hcase as [->|Hallow]; [done|].
      destruct allow_overwrite as [[]|]; simpl; try apply andb_false_r.
      done. }
    eexists. split; [reflexivity|]. split; [reflexivity|]. simpl. split.
    + apply lookup_insert_eq.
    + intros k Hk. by apply lookup_insert_ne.
Qed.

Lemma add_blob_overwrite_policy_witness :
  add_blob "h" Examples.payload' (Some false) Examples.world1
  = (inl (Exception "Key h already stored in blobs"), Examples.world1) ∧
  ∃ w', add_blob "h" Examples.payload' None Examples.world1 = (inr tt, w') ∧
        _blobs (self w') !! "h" = Some Examples.payload'.
Proof.
  destruct (add_blob_overwrite_policy "h" Examples.payload' (Some false)
              Examples.world1) as [Hraise _].
  destruct (add_blob_overwrite_policy "h" Examples.payload' None
              Examples.world1) as [_ Hstore].
  split.
  - apply Hraise. split; [|reflexivity]. vm_compute. eauto.
  - destruct Hstore as (w' & Hrun & _ & Hkey & _); [by right|].
    exists w'. done.
Defined.

(** ** The plugin registry *)

Lemma load_plugins_registry fs reg :
  _load_plugins fs = inr (Some reg) → reg = load_files (plugin_files fs) ∅.
Proof.
  unfold _load_plugins, plugin_files.
  destruct (get_module_info fs) as [e|[module_dir name]]; [discriminate|].
  destruct (path_exists fs (module_dir ++ ["plugins"])); [|discriminate].
  destruct (path_exists fs ((module_dir ++ ["plugins"]) ++ ["__init__.py"]));
    [|discriminate].
  by intros [= <-].
Qed.

Lemma load_plugins_missing_dir fs module_dir name :
  get_module_info fs = inr (module_dir, name) →
  path_exists fs (module_dir ++ ["plugins"]) = false →
  _load_plugins fs = inr None.
Proof. intros Hm He. unfold _load_plugins. by rewrite Hm, He. Qed.

Lemma load_plugins_missing_marker fs module_dir name :
  get_module_info fs = inr (module_dir, name) →
  path_exists fs (module_dir ++ ["plugins"]) = true →
  path_exists fs ((module_dir ++ ["plugins"]) ++ ["__init__.py"]) = false →
  _load_plugins fs
  = inl (Exception "Plugins directory doesn't have a __init__.py file.").
Proof. intros Hm He Hi. unfold _load_plugins. by rewrite Hm, He, Hi. Qed.

Lemma get_plugin_function_unfold function_name w :
  get_plugin_function function_name w =
  match _plugins (self w) with
  | None =>
      (inl (TypeError "argument of type 'NoneType' is not iterable"), w)
  | Some plugins =>
      match plugins !! function_name with
      | None =>
          (inl (Exception ("Plugin function with name " +:+ function_name
                           +:+ " not found")), w)
      | Some f => (inr f, w)
      end
  end.
Proof.
  unfold get_plugin_function, get_self, mbind, M_bind, bind. simpl.
  destruct (_plugins (self w)) as [plugins|]; [|reflexivity].
  by destruct (plugins !! function_name).
Qed.

Lemma collect_functions_absent items reg name :
  (∀ v, (name, v) ∈ items → is_FunctionType v = false) →
  collect_functions items reg !! name = reg !! name.
Proof.
  revert reg. induction items as [|[k v] rest IH]; intros reg Habs; simpl;
    [done|].
  rewrite IH by (intros v' Hin; apply Habs; by apply list_elem_of_further).
  destruct (is_FunctionType v) eqn:Hv; [|done].
  apply lookup_insert_ne. intros ->.
  rewrite (Habs v) in Hv; [done|apply list_elem_of_here].
Qed.

Lemma collect_functions_bound items reg name v :
  NoDup items.*1 → (name, v) ∈ items → is_FunctionType v = true →
  collect_functions items reg !! name = Some v.
Proof.
  revert reg. induction items as [|[k v'] rest IH]; intros reg Hnd Hin Hv;
    simpl.
  - by apply elem_of_nil in Hin.
  - simpl in Hnd. apply NoDup_cons in Hnd as [Hk Hnd].
    apply elem_of_cons in Hin as [Heq|Hin].
    + injection Heq as <- <-. rewrite Hv.
      rewrite collect_functions_absent; [apply lookup_insert_eq|].
      intros v0 Hin0. exfalso. apply Hk.
      apply list_elem_of_fmap. by exists (name, v0).
    + by apply IH.
Qed.

Lemma load_files_absent files reg name :
  (∀ f items v, (f, items) ∈ files → (name, v) ∈ items →
                is_FunctionType v = false) →
  load_files files reg !! name = reg !! name.
Proof.
  revert reg. induction files as [|[f items] rest IH]; intros reg Habs; simpl;
    [done|].
  rewrite IH.
  - apply collect_functions_absent. intros v Hin.
    by apply (Habs f items v); [apply list_elem_of_here|].
  - intros f' items' v Hf Hin.
    by apply (Habs f' items' v); [apply list_elem_of_further|].
Qed.

Lemma load_files_app files1 files2 reg :
  load_files (files1 ++ files2) reg = load_files files2 (load_files files1 reg).
Proof.
  revert reg. induction files1 as [|[f items] rest IH]; intros reg; simpl;
    [done|apply IH].
Qed.

(** C7: on a registry built by the loader, [get_plugin_function] raises
    ["Plugin function with name <name> not found"] for a name that no plugin
    file binds to a function (in particular a name no file defines), and for
    a name that two files define as a function it returns the function of the
    later-loaded file, provided no file loaded after that one defines it
    again. *)
Theorem get_plugin_function_last_write_wins (fs : FileSystem)
    (reg : gmap string PyObj) (w : World) :
  _load_plugins fs = inr (Some reg) →
  _plugins (self w) = Some reg →
  (∀ name,
     (∀ f items v, (f, items) ∈ plugin_files fs → (name, v) ∈ items →
                   is_FunctionType v = false) →
     get_plugin_function name w
     = (inl (Exception ("Plugin function with name " +:+ name
                        +:+ " not found")), w)) ∧
  (∀ name earlier f1 items1 d1 f2 items2 d2 later,
     plugin_files fs = earlier ++ (f2, items2) :: later →
     (f1, items1) ∈ earlier → (name, PyFunction d1) ∈ items1 →
     NoDup items2.*1 → (name, PyFunction d2) ∈ items2 →
     (∀ f items v, (f, items) ∈ later → (name, v) ∈ items →
                   is_FunctionType v = false) →
     get_plugin_function name w = (inr (PyFunction d2), w)).
Proof.
  intros Hload Hreg. apply load_plugins_registry in Hload. split.
  - intros name Habs. rewrite get_plugin_function_unfold, Hreg, Hload.
    by rewrite load_files_absent, lookup_empty.
  - intros name earlier f1 items1 d1 f2 items2 d2 later Hfiles _ _ Hnd Hin
      Hlater.
    rewrite get_plugin_function_unfold, Hreg, Hload, Hfiles.
    rewrite load_files_app. simpl.
    rewrite load_files_absent by done.
    by rewrite (collect_functions_bound items2 _ name (PyFunction d2)).
Qed.

Lemma get_plugin_function_last_write_wins_witness :
  (_load_plugins Examples.fs_two_files
   = inr (_plugins Examples.project_two_files) ∧
   _plugins Examples.project_two_files
   = Some (load_files (plugin_files Examples.fs_two_files) ∅)) ∧
  get_plugin_function "missing" Examples.world_two_files
  = (inl (Exception "Plugin function with name missing not found"),
     Examples.world_two_files) ∧
  get_plugin_function "helper" Examples.world_two_files
  = (inr (PyFunction "extra.helper"), Examples.world_two_files).
Proof.
  assert (_load_plugins Examples.fs_two_files
          = inr (Some (load_files (plugin_files Examples.fs_two_files) ∅)))
    as Hload by (vm_compute; reflexivity).
  assert (_plugins (self Examples.world_two_files)
          = Some (load_files (plugin_files Examples.fs_two_files) ∅))
    as Hreg by (vm_compute; reflexivity).
  split; [split; [vm_compute; reflexivity|exact Hreg]|].
  destruct (get_plugin_function_last_write_wins Examples.fs_two_files _
              Examples.world_two_files Hload Hreg) as [Habsent Hlast].
  split.
  - apply (Habsent "missing"). intros f items v Hf Hin. exfalso.
    vm_compute in Hf.
    repeat (apply elem_of_cons in Hf as [Hf|Hf];
            [injection Hf as -> ->;
             repeat (apply elem_of_cons in Hin as [Hin|Hin];
                     [discriminate Hin|]);
             by apply elem_of_nil in Hin|]).
    by apply elem_of_nil in Hf.
  - apply (Hlast "helper"
             [("__init__.py",
               [("helper", PyFunction "__init__.helper");
                ("VERSION", PyData (VInt 3))])]
             "__init__.py"
             [("helper", PyFunction "__init__.helper");
              ("VERSION", PyData (VInt 3))]
             "__init__.helper"
             "extra.py"
             [("os", PyModule "os");
              ("helper", PyFunction "extra.helper");
              ("other", PyFunction "extra.other")]
             "extra.helper" []).
    + vm_compute. reflexivity.
    + apply list_elem_of_here.
    + apply list_elem_of_here.
    + simpl. repeat (apply NoDup_cons; split;
                     [intros Hin;
                      repeat (apply elem_of_cons in Hin as [Hin|Hin];
                              [discriminate Hin|]);
                      by apply elem_of_nil in Hin|]).
      apply NoDup_nil. done.
    + apply list_elem_of_further, list_elem_of_here.
    + intros f items v Hf. by apply elem_of_nil in Hf.
Defined.

(** C2 fails on the code: for a module without a [plugins] directory the
    loader's bare [return] yields [None], not an empty registry; the project
    is constructed with [_plugins = None], and every [get_plugin_function]
    call then raises the [TypeError] of [name in None]. *)
Theorem load_plugins_missing_dir_yields_None :
  _load_plugins Examples.fs_no_plugins = inr None ∧
  _load_plugins Examples.fs_no_plugins ≠ inr (Some ∅) ∧
  Project__init__ Examples.fs_no_plugins "/tmp/p"
  = inr Examples.project_no_plugins ∧
  _plugins Examples.project_no_plugins = None ∧
  ∀ name t,
    get_plugin_function name
      {| self := Examples.project_no_plugins; trace := t |}
    = (inl (TypeError "argument of type 'NoneType' is not iterable"),
       {| self := Examples.project_no_plugins; trace := t |}).
Proof.
  split; [vm_compute; reflexivity|].
  split; [vm_compute; discriminate|].
  split; [vm_compute; reflexivity|].
  split; [reflexivity|].
  intros name t. by rewrite get_plugin_function_unfold.
Qed.

(** The other half of C2 holds: a [plugins] directory without [__init__.py]
    makes the loader, and with it the construction of the project, raise. *)
Example load_plugins_no_marker :
  _load_plugins Examples.fs_no_marker
  = inl (Exception "Plugins directory doesn't have a __init__.py file.") ∧
  Project__init__ Examples.fs_no_marker "/tmp/p"
  = inl (Exception "Plugins directory doesn't have a __init__.py file.").
Proof. vm_compute. split; reflexivity. Qed.

(** * Further properties of the code *)

(** ** Module discovery *)

Lemma prefix_snoc_cases {A} (d p : list A) (c : A) :
  d `prefix_of` p ++ [c] → d = p ++ [c] ∨ d `prefix_of` p.
Proof.
  intros [k Hk]. destruct k as [|x k _] using rev_ind.
  - left. by rewrite app_nil_r in Hk.
  - right. rewrite app_assoc in Hk. apply app_inj_tail in Hk as [Hp _].
    by exists k.
Qed.

(** The [while] loop stops at the longest prefix of the path under which
    [module.yml] exists. *)
Lemma strip_to_module_nearest fs (path : list string) :
  let r := rev (strip_to_module fs (rev path)) in
  r `prefix_of` path ∧
  (r ≠ [] → path_exists fs (r ++ ["module.yml"]) = true) ∧
  (∀ d, d `prefix_of` path → length r < length d →
        path_exists fs (d ++ ["module.yml"]) = false).
Proof.
  induction path as [|c p IH] using rev_ind.
  - simpl. split; [done|]. split; [done|].
    intros d Hd Hlen. apply prefix_length in Hd. simpl in *. lia.
  - rewrite rev_app_distr. simpl. rewrite rev_involutive.
    destruct (path_exists fs ((p ++ [c]) ++ ["module.yml"])) eqn:Hex.
    + simpl. rewrite rev_involutive. split; [done|]. split; [done|].
      intros d Hd Hlen. apply prefix_length in Hd. lia.
    + destruct IH as (Hpre & Hyes & Hno). split; [|split].
      * by apply prefix_app_r.
      * done.
      * intros d Hd Hlen. apply prefix_snoc_cases in Hd as [->|Hd]; [done|].
        by apply Hno.
Qed.

(** X1: when [get_module_info] returns, the module directory is the nearest
    ancestor of the working directory (the directory itself included) that
    contains [module.yml]: a non-empty prefix of [CURDIR] with the file, and
    no longer prefix has it. *)
Theorem get_module_info_nearest_ancestor (fs : FileSystem)
    (module_dir : list string) (module_name : string) :
  get_module_info fs = inr (module_dir, module_name) →
  module_dir ≠ [] ∧
  module_dir `prefix_of` CURDIR fs ∧
  path_exists fs (module_dir ++ ["module.yml"]) = true ∧
  module_yml_name fs = inr module_name ∧
  ∀ d, d `prefix_of` CURDIR fs → length module_dir < length d →
       path_exists fs (d ++ ["module.yml"]) = false.
Proof.
  unfold get_module_info.
  destruct (strip_to_module_nearest fs (CURDIR fs)) as (Hpre & Hyes & Hno).
  destruct (rev (strip_to_module fs (rev (CURDIR fs)))) as [|x r] eqn:Hr;
    [discriminate|].
  simpl. destruct (module_yml_name fs) as [e|name]; [discriminate|].
  intros [= <- <-]. repeat split; auto.
Qed.

Lemma get_module_info_nearest_ancestor_witness :
  get_module_info Examples.fs_two_files = inr (["home"; "mod"], "mod") ∧
  path_exists Examples.fs_two_files ["home"; "mod"; "module.yml"] = true ∧
  path_exists Examples.fs_two_files ["home"; "mod"; "tests"; "module.yml"]
  = false.
Proof.
  assert (get_module_info Examples.fs_two_files = inr (["home"; "mod"], "mod"))
    as Hinfo by (vm_compute; reflexivity).
  destruct (get_module_info_nearest_ancestor _ _ _ Hinfo)
    as (_ & _ & Hyes & _ & Hno).
  split; [exact Hinfo|]. split; [exact Hyes|].
  apply (Hno ["home"; "mod"; "tests"]); [by exists []|simpl; lia].
Defined.



(** ** The plugin registry, continued *)

Lemma collect_functions_inv items reg name v :
  collect_functions items reg !! name = Some v →
  reg !! name = Some v ∨ ((name, v) ∈ items ∧ is_FunctionType v = true).
Proof.
  revert reg. induction items as [|[k v'] rest IH]; intros reg; simpl;
    [by left|].
  intros Hl. apply IH in Hl as [Hl|[Hin Hf]].
  - destruct (is_FunctionType v') eqn:Hv; [|by left].
    destruct (decide (k = name)) as [->|Hne].
    + rewrite lookup_insert_eq in Hl. injection Hl as ->.
      right. split; [apply list_elem_of_here|done].
    + rewrite lookup_insert_ne in Hl by done. by left.
  - right. split; [by apply list_elem_of_further|done].
Qed.

Lemma collect_functions_keeps items reg name :
  is_Some (reg !! name) → is_Some (collect_functions items reg !! name).
Proof.
  revert reg. induction items as [|[k v] rest IH]; intros reg Hs; simpl;
    [done|].
  apply IH. destruct (is_FunctionType v); [|done].
  destruct (decide (k = name)) as [->|Hne].
  - rewrite lookup_insert_eq. eauto.
  - by rewrite lookup_insert_ne.
Qed.

Lemma collect_functions_adds items reg name v :
  (name, v) ∈ items → is_FunctionType v = true →
  is_Some (collect_functions items reg !! name).
Proof.
  revert reg. induction items as [|[k v'] rest IH]; intros reg Hin Hv; simpl.
  - by apply elem_of_nil in Hin.
  - apply elem_of_cons in Hin as [Heq|Hin]; [|by apply IH].
    injection Heq as <- <-. rewrite Hv. apply collect_functions_keeps.
    rewrite lookup_insert_eq. eauto.
Qed.

Lemma load_files_inv files reg name v :
  load_files files reg !! name = Some v →
  reg !! name = Some v ∨
  (is_FunctionType v = true ∧
   ∃ f items, (f, items) ∈ files ∧ (name, v) ∈ items).
Proof.
  revert reg. induction files as [|[f items] rest IH]; intros reg; simpl;
    [by left|].
  intros Hl. apply IH in Hl as [Hl|(Hf & f' & items' & Hin & Hb)].
  - apply collect_functions_inv in Hl as [Hl|[Hin Hf]]; [by left|].
    right. split; [done|]. exists f, items. split; [apply list_elem_of_here|done].
  - right. split; [done|]. exists f', items'.
    split; [by apply list_elem_of_further|done].
Qed.

Lemma load_files_keeps files reg name :
  is_Some (reg !! name) → is_Some (load_files files reg !! name).
Proof.
  revert reg. induction files as [|[f items] rest IH]; intros reg Hs; simpl;
    [done|].
  by apply IH, collect_functions_keeps.
Qed.

Lemma load_files_adds files reg name f items v :
  (f, items) ∈ files → (name, v) ∈ items → is_FunctionType v = true →
  is_Some (load_files files reg !! name).
Proof.
  revert reg. induction files as [|[f' items'] rest IH]; intros reg Hf Hin Hv;
    simpl.
  - by apply elem_of_nil in Hf.
  - apply elem_of_cons in Hf as [Heq|Hf]; [|by apply IH].
    injection Heq as <- <-.
    by apply load_files_keeps, (collect_functions_adds _ _ _ v).
Qed.

(** X3: the registry the loader builds holds exactly the names that some
    plugin file binds to a function, and each of them is mapped to a function
    object that one of the files binds to that name; classes, modules and
    data of the plugin files never enter it. *)
Theorem load_plugins_registry_only_functions (fs : FileSystem)
    (reg : gmap string PyObj) :
  _load_plugins fs = inr (Some reg) →
  (∀ name v, reg !! name = Some v →
     is_FunctionType v = true ∧
     ∃ f items, (f, items) ∈ plugin_files fs ∧ (name, v) ∈ items) ∧
  (∀ name, is_Some (reg !! name) ↔
     ∃ f items v, (f, items) ∈ plugin_files fs ∧ (name, v) ∈ items ∧
                  is_FunctionType v = true).
Proof.
  intros Hload. apply load_plugins_registry in Hload as ->.
  assert (∀ name v,
            load_files (plugin_files fs) ∅ !! name = Some v →
            is_FunctionType v = true ∧
            ∃ f items, (f, items) ∈ plugin_files fs ∧ (name, v) ∈ items)
    as Hinv.
  { intros name v Hl. apply load_files_inv in Hl as [Hl|Hl]; [|done].
    by rewrite lookup_empty in Hl. }
  split; [exact Hinv|]. intros name. split.
  - intros [v Hl]. destruct (Hinv name v Hl) as (Hf & f & items & Hin & Hb).
    by exists f, items, v.
  - intros (f & items & v & Hin & Hb & Hf). by eapply load_files_adds.
Qed.

Lemma load_plugins_registry_only_functions_witness :
  (∃ reg, _load_plugins Examples.fs_two_files = inr (Some reg) ∧
          reg !! "VERSION" = None ∧ reg !! "os" = None ∧
          is_Some (reg !! "other")).
Proof.
  exists (load_files (plugin_files Examples.fs_two_files) ∅).
  assert (_load_plugins Examples.fs_two_files
          = inr (Some (load_files (plugin_files Examples.fs_two_files) ∅)))
    as Hload by (vm_compute; reflexivity).
  split; [exact Hload|].
  destruct (load_plugins_registry_only_functions _ _ Hload) as [Hvals Hkeys].
  split; [|split].
  - destruct (load_files (plugin_files Examples.fs_two_files) ∅ !! "VERSION")
      as [v|] eqn:Hl; [|done].
    apply Hvals in Hl as (Hf & f & items & Hin & Hb). exfalso.
    vm_compute in Hin.
    repeat (apply elem_of_cons in Hin as [Hin|Hin];
            [injection Hin as -> ->;
             repeat (apply elem_of_cons in Hb as [Hb|Hb];
                     [first [discriminate Hb
                            | injection Hb as ->; discriminate Hf]|]);
             by apply elem_of_nil in Hb|]).
    by apply elem_of_nil in Hin.
  - destruct (load_files (plugin_files Examples.fs_two_files) ∅ !! "os")
      as [v|] eqn:Hl; [|done].
    apply Hvals in Hl as (Hf & f & items & Hin & Hb). exfalso.
    vm_compute in Hin.
    repeat (apply elem_of_cons in Hin as [Hin|Hin];
            [injection Hin as -> ->;
             repeat (apply elem_of_cons in Hb as [Hb|Hb];
                     [first [discriminate Hb
                            | injection Hb as ->; discriminate Hf]|]);
             by apply elem_of_nil in Hb|]).
    by apply elem_of_nil in Hin.
  - apply Hkeys.
    exists "extra.py",
      [("os", PyModule "os"); ("helper", PyFunction "extra.helper");
       ("other", PyFunction "extra.other")],
      (PyFunction "extra.other").
    split; [|split; [|reflexivity]].
    + vm_compute. apply list_elem_of_further, list_elem_of_here.
    + do 2 apply list_elem_of_further. apply list_elem_of_here.
Defined.

(** ** The blob and fact stores *)

Lemma get_blob_unfold key w :
  get_blob key w =
  match _blobs (self w) !! key with
  | Some content => (inr content, w)
  | None => (inl (KeyError key), w)
  end.
Proof.
  unfold get_blob, get_self, mbind, M_bind, bind. simpl.
  by destruct (_blobs (self w) !! key).
Qed.

Lemma stat_blob_unfold key w :
  stat_blob key w = (inr (contains (_blobs (self w)) key), w).
Proof. reflexivity. Qed.

(** X4: a blob that [add_blob] accepted is what [get_blob] returns for the
    key afterwards, [stat_blob] reports it, and both answer for every other
    key as they did before the call. *)
Theorem add_blob_then_get_blob (key : string) (content : Blob)
    (allow_overwrite : option bool) (w w' : World) :
  add_blob key content allow_overwrite w = (inr tt, w') →
  get_blob key w' = (inr content, w') ∧
  stat_blob key w' = (inr true, w') ∧
  ∀ k, k ≠ key →
       fst (get_blob k w') = fst (get_blob k w) ∧
       fst (stat_blob k w') = fst (stat_blob k w).
Proof.
  rewrite add_blob_unfold.
  destruct (contains (_blobs (self w)) key && _); [discriminate|].
  intros [= <-]. split; [|split].
  - rewrite get_blob_unfold. simpl. by rewrite lookup_insert_eq.
  - rewrite stat_blob_unfold. unfold contains. simpl.
    by rewrite lookup_insert_eq.
  - intros k Hk. rewrite !get_blob_unfold, !stat_blob_unfold.
    unfold contains. simpl. rewrite lookup_insert_ne by done.
    by destruct (_blobs (self w) !! k).
Qed.

Lemma add_blob_then_get_blob_witness :
  add_blob "b" Examples.payload' None Examples.world1
  = (inr tt, snd (add_blob "b" Examples.payload' None Examples.world1)) ∧
  fst (get_blob "b" (snd (add_blob "b" Examples.payload' None Examples.world1)))
  = inr Examples.payload' ∧
  fst (get_blob "h" (snd (add_blob "b" Examples.payload' None Examples.world1)))
  = inr Examples.payload.
Proof.
  assert (add_blob "b" Examples.payload' None Examples.world1
          = (inr tt, snd (add_blob "b" Examples.payload' None Examples.world1)))
    as Hadd by (vm_compute; reflexivity).
  destruct (add_blob_then_get_blob _ _ _ _ _ Hadd) as (Hget & _ & Hother).
  split; [exact Hadd|]. split.
  - by rewrite Hget.
  - destruct (Hother "h") as [-> _]; [done|]. vm_compute. reflexivity.
Defined.

(** X5: [get_blob] raises [KeyError] exactly on the keys for which
    [stat_blob] answers False, and returns a payload exactly on those for
    which it answers True; neither call changes the world. *)
Theorem get_blob_raises_iff_not_stat (key : string) (w : World) :
  (fst (stat_blob key w) = inr false ↔
   get_blob key w = (inl (KeyError key), w)) ∧
  (fst (stat_blob key w) = inr true ↔
   ∃ content, get_blob key w = (inr content, w)) ∧
  snd (stat_blob key w) = w ∧ snd (get_blob key w) = w.
Proof.
  rewrite get_blob_unfold, stat_blob_unfold. unfold contains. simpl.
  destruct (_blobs (self w) !! key) as [c|]; simpl.
  - split; [split; discriminate|]. split; [|done].
    split; [by exists c|done].
  - split; [done|]. split; [|done].
    split; [discriminate|]. by intros [c [=]].
Qed.

(** X6: [add_fact] never raises; afterwards the fact has the given value, and
    every other fact of the resource, every fact of any other resource, the
    blob store, the resources and the trace are as before. *)
Theorem add_fact_accumulates (resource_id name : string) (value : Value)
    (w : World) :
  ∃ w',
    add_fact resource_id name value w = (inr tt, w') ∧
    fact_of (self w') resource_id name = Some value ∧
    (∀ n, n ≠ name →
          fact_of (self w') resource_id n = fact_of (self w) resource_id n) ∧
    (∀ r, r ≠ resource_id → _facts (self w') !! r = _facts (self w) !! r) ∧
    self w' = set_facts (_facts (self w')) (self w) ∧
    trace w' = trace w.
Proof.
  eexists. split.
  { unfold add_fact, get_self, modify_self, mbind, M_bind, bind. simpl.
    reflexivity. }
  unfold fact_of. simpl.
  rewrite lookup_insert_eq. simpl. rewrite lookup_insert_eq.
  split; [done|]. split; [|split; [|done]].
  - intros n Hn. rewrite lookup_insert_ne by done.
    by destruct (_facts (self w) !! resource_id).
  - intros r Hr. by rewrite lookup_insert_ne.
Qed.

(** ** Options *)



(** ** Compiling a model *)

Lemma set_blobs_set_blobs b1 b2 p :
  set_blobs b2 (set_blobs b1 p) = set_blobs b2 p.
Proof. reflexivity. Qed.

Lemma add_blobs_unfold items w :
  add_blobs items w
  = (inr tt,
     {| self := set_blobs (store_all items (_blobs (self w))) (self w);
        trace := trace w |}).
Proof.
  revert w. induction items as [|[key blob] rest IH]; intros w; simpl.
  - destruct w as [[] ?]. reflexivity.
  - unfold mbind, M_bind, bind. rewrite add_blob_unfold. simpl.
    rewrite andb_false_r, IH. reflexivity.
Qed.

Lemma store_all_lookup_other items b k :
  k ∉ items.*1 → store_all items b !! k = b !! k.
Proof.
  revert b. induction items as [|[key blob] rest IH]; intros b Hk; simpl;
    [done|].
  simpl in Hk. apply not_elem_of_cons in Hk as [Hne Hk].
  rewrite IH by done. by apply lookup_insert_ne.
Qed.

Lemma store_all_lookup items b k content :
  NoDup items.*1 → (k, content) ∈ items →
  store_all items b !! k = Some content.
Proof.
  revert b. induction items as [|[key blob] rest IH]; intros b Hnd Hin; simpl.
  - by apply elem_of_nil in Hin.
  - simpl in Hnd. apply NoDup_cons in Hnd as [Hk Hnd].
    apply elem_of_cons in Hin as [Heq|Hin]; [|by apply IH].
    injection Heq as <- <-.
    rewrite store_all_lookup_other by done. apply lookup_insert_eq.
Qed.

Section CompileFacts.

Context (fw : Framework).

(** [compile], by whether [init] has set the capture fixture and by the
    outcome of the compiler. *)
Lemma compile_unfold main w :
  compile fw main w =
  match _capsys (self w) with
  | None =>
      (inl (AttributeError "'NoneType' object has no attribute 'readouterr'"),
       log_events [EvWriteMain main] w)
  | Some _ =>
      match do_compile fw main (_facts (self w)) with
      | inl e => (inl e, log_events [EvWriteMain main; EvReadOutErr] w)
      | inr c =>
          (inr tt,
           {| self :=
                {| _test_project_dir := _test_project_dir (self w);
                   _stdout := Some (c_out c);
                   _stderr := Some (c_err c);
                   types := Some (c_types c);
                   version := Some (c_version c);
                   resources := c_resources c;
                   _exporter := Some (c_exporter c);
                   _blobs := store_all (_file_store (c_exporter c))
                               (_blobs (self w));
                   _facts := _facts (self w);
                   _plugins := _plugins (self w);
                   _capsys := _capsys (self w) |};
              trace := trace w ++ [EvWriteMain main; EvReadOutErr;
                                   EvReadOutErr] |})
      end
  end.
Proof.
  unfold compile.
  unfold mbind at 1 2 3. unfold M_bind at 1 2 3. unfold bind at 1 2 3.
  unfold emit at 1, get_self, log_events. simpl.
  destruct (_capsys (self w)) as [capsys|] eqn:Hc; [|reflexivity].
  unfold emit at 1, lift.
  unfold mbind at 1. unfold M_bind at 1. unfold bind at 1. simpl.
  rewrite <- app_assoc. simpl.
  destruct (do_compile fw main (_facts (self w))) as [e|c]; [reflexivity|].
  unfold mbind at 1. unfold M_bind at 1. unfold bind at 1.
  rewrite add_blobs_unfold. simpl.
  unfold mbind, M_bind, bind, modify_self, emit. simpl.
  rewrite <- app_assoc, Hc. reflexivity.
Qed.


(** X9: when the capture fixture is set and the compiler succeeds, [compile]
    returns; the project then holds the compiled types, version and
    resources and the captured output, every blob of the exporter's file
    store is in the blob store under its key, the blobs under other keys and
    the facts are as before. *)
Theorem compile_stores_result (main : string) (w : World) (capsys : CapSys)
    (c : Compiled) :
  _capsys (self w) = Some capsys →
  do_compile fw main (_facts (self w)) = inr c →
  NoDup (_file_store (c_exporter c)).*1 →
  ∃ w',
    compile fw main w = (inr tt, w') ∧
    types (self w') = Some (c_types c) ∧
    version (self w') = Some (c_version c) ∧
    resources (self w') = c_resources c ∧
    _exporter (self w') = Some (c_exporter c) ∧
    fst (get_stdout w') = inr (Some (c_out c)) ∧
    fst (get_stderr w') = inr (Some (c_err c)) ∧
    _facts (self w') = _facts (self w) ∧
    (∀ key blob, (key, blob) ∈ _file_store (c_exporter c) →
                 get_blob key w' = (inr blob, w')) ∧
    (∀ key, key ∉ (_file_store (c_exporter c)).*1 →
            _blobs (self w') !! key = _blobs (self w) !! key).
Proof.
  intros Hcap Hcomp Hnd. rewrite compile_unfold, Hcap, Hcomp.
  eexists. split; [reflexivity|]. simpl.
  repeat (split; [reflexivity|]). split.
  - intros key blob Hin. rewrite get_blob_unfold. simpl.
    by rewrite (store_all_lookup _ _ key blob).
  - intros key Hkey. by apply store_all_lookup_other.
Qed.

(** X10: when the compiler raises, [compile] raises the same exception and
    the project is left as it was: the resources, types and version of an
    earlier compile stay in place. *)
Theorem compile_failure_keeps_project (main : string) (w : World)
    (capsys : CapSys) (e : Exn) :
  _capsys (self w) = Some capsys →
  do_compile fw main (_facts (self w)) = inl e →
  fst (compile fw main w) = inl e ∧
  self (snd (compile fw main w)) = self w ∧
  trace (snd (compile fw main w))
  = trace w ++ [EvWriteMain main; EvReadOutErr].
Proof.
  intros Hcap Hcomp. by rewrite compile_unfold, Hcap, Hcomp.
Qed.

End CompileFacts.


Lemma compile_stores_result_witness :
  ∃ w', compile Examples.fw "import testmodule" Examples.world0 = (inr tt, w')
        ∧ length (resources (self w')) = 3
        ∧ get_blob "h" w' = (inr Examples.payload, w').
Proof.
  destruct (compile_stores_result Examples.fw "import testmodule"
              Examples.world0 {| capsys_handle := 0 |}
              {| c_types := ∅; c_version := 1;
                 c_resources := [("r1", Examples.res_file);
                                 ("r2", Examples.res_db);
                                 ("r3", Examples.res_it)];
                 c_exporter := {| _file_store := [("h", Examples.payload)] |};
                 c_out := ""; c_err := "" |})
    as (w' & Hrun & _ & _ & Hres & _ & _ & _ & _ & Hblob & _).
  - reflexivity.
  - reflexivity.
  - simpl. apply NoDup_cons. split; [by intros ?%elem_of_nil|apply NoDup_nil].
    done.
  - exists w'. split; [exact Hrun|]. split; [by rewrite Hres|].
    apply Hblob. apply list_elem_of_here.
Defined.

Lemma compile_failure_keeps_project_witness :
  fst (compile Examples.fw_failing "import testmodule" Examples.world1)
  = inl (Exception "could not compile") ∧
  resources (self (snd (compile Examples.fw_failing "import testmodule"
                          Examples.world1)))
  = resources (self Examples.world1).
Proof.
  destruct (compile_failure_keeps_project Examples.fw_failing
              "import testmodule" Examples.world1 {| capsys_handle := 0 |}
              (Exception "could not compile"))
    as (Hraise & Hself & _); [reflexivity|reflexivity|].
  split; [exact Hraise|]. by rewrite Hself.
Defined.

(** ** What a deployment can change *)

Lemma set_blobs_id p : set_blobs (_blobs p) p = p.
Proof. by destruct p. Qed.

Lemma only_blobs_grow_refl p : only_blobs_grow p p.
Proof. split; [by rewrite set_blobs_id|done]. Qed.

Lemma only_blobs_grow_trans p1 p2 p3 :
  only_blobs_grow p1 p2 → only_blobs_grow p2 p3 → only_blobs_grow p1 p3.
Proof.
  intros [H12 K12] [H23 K23]. split; [|by auto].
  rewrite H23 at 1. rewrite H12 at 1. reflexivity.
Qed.

(** [dryrun] on top of [deploy], as an equation between the two runs. *)
Lemma dryrun_is_deploy fw r run_as_root w :
  dryrun fw r (Some run_as_root) w
  = deploy fw r (Some true) (Some run_as_root) w.
Proof. reflexivity. Qed.

Section DeployInvariants.

Context (fw : Framework).

Lemma run_handler_only_blobs p r w :
  only_blobs_grow (self w) (self (snd (run_handler (wired p) r w))).
Proof.
  revert w.
  induction r as [st chg lg|e|key k IH|key k IH|key content k IH]; intros w;
    simpl.
  - apply only_blobs_grow_refl.
  - apply only_blobs_grow_refl.
  - rewrite get_blob_unfold.
    destruct (_blobs (self w) !! key); apply IH.
  - unfold mbind, M_bind, bind. rewrite stat_blob_unfold. apply IH.
  - unfold mbind, M_bind, bind. rewrite add_blob_unfold. simpl.
    rewrite andb_false_r.
    eapply only_blobs_grow_trans; [|apply IH]. simpl.
    split; [reflexivity|]. intros k' [b Hb]. simpl.
    destruct (decide (key = k')) as [->|Hne].
    + rewrite lookup_insert_eq. eauto.
    + rewrite lookup_insert_ne by done. eauto.
Qed.

Lemma deploy_only_blobs resource dry_run run_as_root w :
  only_blobs_grow (self w)
    (self (snd (deploy fw resource dry_run run_as_root w))).
Proof.
  rewrite deploy_unfold. cbv zeta.
  destruct (get_provider fw _ resource) as [e|p];
    [apply only_blobs_grow_refl|].
  pose proof (run_handler_only_blobs p
    (execute p resource (default false dry_run))
    (log_events [EvSetCache; EvExecute resource (default false dry_run)]
       (log_events [EvOpenVersion (version_of (id resource));
                    EvGetProvider (agent_for (default false run_as_root))
                      resource] w))) as Hinv.
  destruct (run_handler (wired p) _ _) as [[e|[[st chg] lg]] w3];
    simpl in Hinv; [exact Hinv|].
  by destruct (json_encode fw lg) as [e|[]].
Qed.

(** X11: whatever the handler does and however the call ends, after
    [deploy], [deploy_resource] or [dryrun_resource] the project differs from
    the one before at most in its blob store, and every key stored before is
    still stored: a deployment cannot remove a blob, touch a fact, or change
    the compiled resources. *)
Theorem deploy_only_touches_blobs (resource : Resource)
    (dry_run : option bool) (resource_type : string)
    (status : option ResourceState) (run_as_root : option bool)
    (filter_args : list (string * Value)) (w : World) :
  only_blobs_grow (self w)
    (self (snd (deploy fw resource dry_run run_as_root w))) ∧
  only_blobs_grow (self w)
    (self (snd (deploy_resource fw resource_type status run_as_root
                  filter_args w))) ∧
  only_blobs_grow (self w)
    (self (snd (dryrun_resource fw resource_type status run_as_root
                  filter_args w))).
Proof.
  split; [apply deploy_only_blobs|].
  rewrite deploy_resource_unfold, dryrun_resource_unfold.
  destruct (first_match _ resource_type filter_args) as [res|];
    [|split; apply only_blobs_grow_refl].
  split.
  - pose proof (deploy_only_blobs res
                  (Some (default false run_as_root)) None w) as Hinv.
    destruct (deploy fw res _ None w) as [[e|ctx] w']; [exact Hinv|].
    by case_bool_decide.
  - rewrite dryrun_is_deploy.
    pose proof (deploy_only_blobs res (Some true)
                  (Some (default false run_as_root)) w) as Hinv.
    destruct (deploy fw res _ _ w) as [[e|ctx] w']; [exact Hinv|].
    by case_bool_decide.
Qed.

End DeployInvariants.

Section DeployOutcomes.

Context (fw : Framework).

(** X12: the file callbacks of a handler are the blob store of the project:
    [upload_file] never raises, also on a key that is already stored, and a
    later [get_file] of the same run receives the uploaded payload;
    [get_file] on a key that is not stored raises [KeyError] inside the
    handler, and [stat_file] answers whether the key is stored. *)
Theorem handler_callbacks_are_blob_store (p : Provider) (key : string)
    (content : Blob) (k : Result Blob -> HandlerRun)
    (k' : bool -> HandlerRun) (w : World) :
  run_handler (wired p) (HUploadFile key content (HGetFile key k)) w
  = run_handler (wired p) (k (inr content))
      {| self := set_blobs (<[key := content]> (_blobs (self w))) (self w);
         trace := trace w |} ∧
  run_handler (wired p) (HGetFile key k) w
  = run_handler (wired p)
      (k (match _blobs (self w) !! key with
          | Some stored => inr stored
          | None => inl (KeyError key)
          end)) w ∧
  run_handler (wired p) (HStatFile key k') w
  = run_handler (wired p) (k' (bool_decide (is_Some (_blobs (self w) !! key))))
      w.
Proof.
  split; [|split].
  - simpl. unfold mbind, M_bind, bind. rewrite add_blob_unfold. simpl.
    rewrite andb_false_r, get_blob_unfold. simpl.
    by rewrite lookup_insert_eq.
  - simpl. rewrite get_blob_unfold. by destruct (_blobs (self w) !! key).
  - simpl. unfold mbind, M_bind, bind. rewrite stat_blob_unfold.
    unfold contains. destruct (_blobs (self w) !! key) as [b|].
    + by rewrite bool_decide_eq_true_2.
    + rewrite bool_decide_eq_false_2; [done|]. by intros [? ?].
Qed.

(** X13: when no provider can be resolved for the resource, [deploy] raises
    the exception of the lookup; the cache version was opened, no handler was
    executed, no context was serialized, and the project is unchanged. *)
Theorem deploy_without_provider_raises (resource : Resource)
    (dry_run run_as_root : option bool) (w : World) (e : Exn) :
  get_provider fw (agent_for (default false run_as_root)) resource = inl e →
  deploy fw resource dry_run run_as_root w
  = (inl e,
     {| self := self w;
        trace := trace w ++
          [EvOpenVersion (version_of (id resource));
           EvGetProvider (agent_for (default false run_as_root)) resource] |}).
Proof. intros Hp. rewrite deploy_unfold. cbv zeta. by rewrite Hp. Qed.

(** X14: when the deployment of the found resource ends in another status
    than the expected one, [deploy_resource] prints the diagnostics - the
    mismatch line, the requested changes, and for every log entry its
    message, its keyword arguments without the traceback, and the traceback
    if there is one - and then raises an [AssertionError]; the context is not
    serialized a second time. *)
Theorem deploy_resource_wrong_status_raises (resource_type : string)
    (status : option ResourceState) (run_as_root : option bool)
    (filter_args : list (string * Value)) (w w' : World) (res : Resource)
    (ctx : HandlerContext) :
  fst (get_resource resource_type filter_args w) = inr (Some res) →
  deploy fw res (Some (default false run_as_root)) None w = (inr ctx, w') →
  ctx_status ctx ≠ Some (default deployed status) →
  deploy_resource fw resource_type status run_as_root filter_args w
  = (inl (AssertionError None),
     {| self := self w';
        trace := trace w' ++
          EvPrint PIncorrectStatus
          :: EvPrint (PRequestedChanges (ctx_changes ctx))
          :: concat (map log_prints (ctx_logs ctx)) |}).
Proof.
  intros Hfound Hd Hs. simpl in Hfound. injection Hfound as Hfound.
  rewrite deploy_resource_unfold, Hfound, Hd.
  by rewrite bool_decide_eq_false_2.
Qed.

(** What [dryrun_resource] adds to the trace after a resource was found. *)
Lemma dryrun_resource_trace resource_type status run_as_root filter_args w
    res :
  first_match (values (resources (self w))) resource_type filter_args
  = Some res →
  ∃ tail,
    trace (snd (dryrun_resource fw resource_type status run_as_root
                  filter_args w))
    = trace w ++ EvOpenVersion (version_of (id res))
        :: EvGetProvider (agent_for (default false run_as_root)) res :: tail ∧
    match get_provider fw (agent_for (default false run_as_root)) res with
    | inl _ => tail = []
    | inr _ =>
        ∃ rest, tail = EvSetCache :: EvExecute res true :: rest ∧
                Forall (fun ev => is_deployment ev = false) rest
    end.
Proof.
  intros Hfound. rewrite dryrun_resource_unfold, Hfound, dryrun_is_deploy.
  destruct (deploy_trace fw res (Some true)
              (Some (default false run_as_root)) w) as (tail & Ht & Htail).
  simpl in Ht, Htail. exists tail. split; [|exact Htail].
  destruct (deploy fw res _ _ w) as [[e|ctx] w']; [exact Ht|].
  by case_bool_decide.
Qed.

(** X15: unlike [deploy_resource], [dryrun_resource] hands its [run_as_root]
    argument on as such: the provider is looked up for the agent
    ["ssh://root@localhost"] when it is True and for ["local:"] otherwise,
    and the handler, when resolved, is executed exactly once, on the found
    resource, with [dry_run] True. *)
Theorem dryrun_resource_passes_run_as_root (resource_type : string)
    (status : option ResourceState) (run_as_root : option bool)
    (filter_args : list (string * Value)) (w : World) (res : Resource) :
  fst (get_resource resource_type filter_args w) = inr (Some res) →
  ∃ evs,
    trace (snd (dryrun_resource fw resource_type status run_as_root
                  filter_args w)) = trace w ++ evs ∧
    (∀ agent r, EvGetProvider agent r ∈ evs →
       r = res ∧
       uri agent = if default false run_as_root then "ssh://root@localhost"
                   else "local:") ∧
    (∀ r d, EvExecute r d ∈ evs → r = res ∧ d = true) ∧
    (∀ p, get_provider fw (agent_for (default false run_as_root)) res = inr p →
          EvExecute res true ∈ evs).
Proof.
  intros Hfound. simpl in Hfound. injection Hfound as Hfound.
  destruct (dryrun_resource_trace resource_type status run_as_root
              filter_args w res Hfound) as (tail & Ht & Htail).
  eexists. split; [exact Ht|].
  assert (∀ ev, ev ∈ tail → ∀ agent r, ev ≠ EvGetProvider agent r) as Hnoget.
  { intros ev Hin agent r ->.
    destruct (get_provider fw _ res) as [e|p].
    - subst tail. by apply elem_of_nil in Hin.
    - destruct Htail as (rest & -> & Hrest). rewrite Forall_forall in Hrest.
      repeat (apply elem_of_cons in Hin as [Heq|Hin]; [discriminate|]).
      apply Hrest in Hin. discriminate. }
  split; [|split].
  - intros agent r Hin.
    apply elem_of_cons in Hin as [Heq|Hin]; [discriminate|].
    apply elem_of_cons in Hin as [Heq|Hin].
    + injection Heq as -> ->. split; [done|].
      unfold agent_for. by destruct (default false run_as_root).
    + by destruct (Hnoget _ Hin agent r).
  - intros r d Hin.
    apply elem_of_cons in Hin as [Heq|Hin]; [discriminate|].
    apply elem_of_cons in Hin as [Heq|Hin]; [discriminate|].
    destruct (get_provider fw _ res) as [e|p].
    + subst tail. by apply elem_of_nil in Hin.
    + destruct Htail as (rest & -> & Hrest). rewrite Forall_forall in Hrest.
      apply elem_of_cons in Hin as [Heq|Hin]; [discriminate|].
      apply elem_of_cons in Hin as [Heq|Hin]; [by injection Heq as -> ->|].
      apply Hrest in Hin. discriminate.
  - intros p Hp. rewrite Hp in Htail. destruct Htail as (rest & -> & _).
    do 3 apply list_elem_of_further. apply list_elem_of_here.
Qed.

(** X16: right after [init] the project is empty for every accessor: no
    resource is found, so [deploy_resource] and [dryrun_resource] raise their
    lookup assertion without touching a handler, no blob and no fact is
    stored, and [get_instances] raises [TypeError] because [types] is
    [None]. *)
Theorem init_then_nothing_found (capsys : CapSys) (w : World)
    (resource_type : string) (status : option ResourceState)
    (run_as_root : option bool) (filter_args : list (string * Value))
    (key resource_id name : string) (fortype : option string) :
  let w' := snd (init capsys w) in
  get_resource resource_type filter_args w' = (inr None, w') ∧
  deploy_resource fw resource_type status run_as_root filter_args w'
  = (inl (AssertionError
            (Some "No resource found of given type and filter args")), w') ∧
  dryrun_resource fw resource_type status run_as_root filter_args w'
  = (inl (AssertionError
            (Some "No resource found of given type and filter args")), w') ∧
  get_blob key w' = (inl (KeyError key), w') ∧
  stat_blob key w' = (inr false, w') ∧
  fact_of (self w') resource_id name = None ∧
  get_instances fortype w'
  = (inl (TypeError "'NoneType' object is not subscriptable"), w').
Proof.
  cbv zeta. rewrite deploy_resource_unfold, dryrun_resource_unfold.
  repeat split.
Qed.

End DeployOutcomes.

(** X17: [get_plugins] and [get_plugin_function] answer from the same
    registry: when [get_plugins] returns a mapping, [get_plugin_function]
    returns what the mapping holds for the name and raises its "not found"
    exception for the names the mapping lacks; when the loader produced
    [None], both raise [TypeError]. *)
Theorem get_plugins_agrees_with_lookup (w : World) :
  snd (get_plugins w) = w ∧
  match fst (get_plugins w) with
  | inr reg =>
      ∀ name,
        get_plugin_function name w
        = (match reg !! name with
           | Some f => inr f
           | None => inl (Exception ("Plugin function with name " +:+ name
                                     +:+ " not found"))
           end, w)
  | inl e =>
      e = TypeError "'NoneType' object is not iterable" ∧
      _plugins (self w) = None ∧
      ∀ name,
        get_plugin_function name w
        = (inl (TypeError "argument of type 'NoneType' is not iterable"), w)
  end.
Proof.
  unfold get_plugins, get_self, mbind, M_bind, bind. simpl.
  destruct (_plugins (self w)) as [reg|] eqn:Hreg; simpl.
  - split; [done|]. intros name.
    rewrite get_plugin_function_unfold, Hreg. by destruct (reg !! name).
  - split; [done|]. split; [done|]. split; [done|]. intros name.
    by rewrite get_plugin_function_unfold, Hreg.
Qed.

Lemma deploy_without_provider_raises_witness :
  deploy Examples.fw_failing Examples.res_it None (Some true) Examples.world1
  = (inl (Exception "no provider"),
     {| self := Examples.project1;
        trace := [EvOpenVersion 1;
                  EvGetProvider {| uri := "ssh://root@localhost" |}
                    Examples.res_it] |}).
Proof.
  exact (deploy_without_provider_raises Examples.fw_failing Examples.res_it
           None (Some true) Examples.world1 (Exception "no provider")
           eq_refl).
Defined.

Lemma deploy_resource_wrong_status_raises_witness :
  ∃ w', deploy_resource Examples.fw_handler_fails "std::File" None None []
          Examples.world1 = (inl (AssertionError None), w') ∧
        self w' = Examples.project1 ∧
        EvPrint (PKwargs ["resource: r"]) ∈ trace w' ∧
        EvPrint (PTraceback "Traceback") ∈ trace w'.
Proof.
  pose proof (deploy_resource_wrong_status_raises Examples.fw_handler_fails
                "std::File" None None [] Examples.world1
                (snd (deploy Examples.fw_handler_fails Examples.res_file
                        (Some false) None Examples.world1))
                Examples.res_file
                {| ctx_resource := Examples.res_file;
                   ctx_status := Some failed; ctx_changes := [];
                   ctx_logs :=
                     [{| log_msg := "An error occurred";
                         log_kwargs := [("resource", "r");
                                        ("traceback", "Traceback")] |}] |})
    as Hraise.
  specialize (Hraise ltac:(vm_compute; reflexivity)
                ltac:(vm_compute; reflexivity) ltac:(simpl; discriminate)).
  eexists. split; [exact Hraise|].
  split; [vm_compute; reflexivity|]. simpl. split.
  - do 8 apply list_elem_of_further. apply list_elem_of_here.
  - do 9 apply list_elem_of_further. apply list_elem_of_here.
Defined.

Lemma dryrun_resource_passes_run_as_root_witness :
  ∃ evs,
    trace (snd (dryrun_resource Examples.fw "std::File" None (Some true) []
                  Examples.world1)) = trace Examples.world1 ++ evs ∧
    EvGetProvider {| uri := "ssh://root@localhost" |} Examples.res_file ∈ evs
    ∧ EvExecute Examples.res_file true ∈ evs.
Proof.
  destruct (dryrun_resource_passes_run_as_root Examples.fw "std::File" None
              (Some true) [] Examples.world1 Examples.res_file)
    as (evs & Ht & _ & _ & Hexec); [vm_compute; reflexivity|].
  exists evs. split; [exact Ht|]. split.
  - vm_compute in Ht. subst evs.
    apply list_elem_of_further, list_elem_of_here.
  - by apply (Hexec Examples.prov).
Defined.

(** ** The project directory *)

Lemma removelast_shorter {A} (l : list A) : l ≠ [] → removelast l ≠ l.
Proof.
  intros Hl Heq. destruct l as [|x l _] using rev_ind; [done|].
  rewrite removelast_last in Heq.
  apply (f_equal length) in Heq. rewrite length_app in Heq. simpl in Heq. lia.
Qed.

Lemma node_at_cons d x path : node_at d (x :: path) = d !! (x :: path).
Proof. reflexivity. Qed.

Lemma node_at_insert_ne d path path' node :
  path ≠ path' → path' ≠ [] →
  node_at (<[path := node]> d) path' = node_at d path'.
Proof.
  intros Hne Hnil. destruct path'; [done|]. simpl. by apply lookup_insert_ne.
Qed.



(** Adding a node under an existing directory keeps the disk a tree, unless
    it would turn a directory into a file. *)
Lemma tree_insert d path node :
  tree d → path ≠ [] → node_at d (removelast path) = Some Dir →
  (node = Dir ∨ d !! path ≠ Some Dir) →
  tree (<[path := node]> d).
Proof.
  intros Htree Hnil Hparent Hkind path' node' Hl.
  destruct (decide (path = path')) as [<-|Hne].
  - split; [done|].
    destruct (removelast path) as [|x l] eqn:Hr; [done|].
    rewrite node_at_cons, lookup_insert_ne, <- node_at_cons; [done|].
    rewrite <- Hr. intros Heq. by apply (removelast_shorter path).
  - rewrite lookup_insert_ne in Hl by done.
    destruct (Htree path' node' Hl) as [Hnil' Hparent']. split; [done|].
    destruct (removelast path') as [|x l] eqn:Hr; [done|].
    rewrite node_at_cons. rewrite node_at_cons in Hparent'.
    destruct (decide (path = x :: l)) as [->|Hne'].
    + rewrite lookup_insert_eq. destruct Hkind as [->|Hkind]; [done|].
      by destruct Hkind.
    + by rewrite lookup_insert_ne.
Qed.

Lemma os_mkdir_tree path d : tree d → tree (snd (os_mkdir path d)).
Proof.
  intros Htree. unfold os_mkdir.
  destruct (node_at d path) as [n|] eqn:Hn; [done|].
  destruct (node_at d (removelast path)) as [[|c]|] eqn:Hp; [|done|done].
  simpl. apply tree_insert; [done| |done|by left].
  intros ->. discriminate Hn.
Qed.

Lemma write_file_tree path content d :
  tree d → tree (snd (write_file path content d)).
Proof.
  intros Htree. unfold write_file.
  destruct (node_at d path) as [[|c]|] eqn:Hn; [done| |];
    (destruct (node_at d (removelast path)) as [[|c']|] eqn:Hp;
     [|done|done]);
    simpl; (apply tree_insert; [done| |done|right]).
  - intros ->. discriminate Hn.
  - destruct path; [discriminate Hn|]. simpl in Hn. congruence.
  - intros ->. discriminate Hn.
  - destruct path; [discriminate Hn|]. simpl in Hn. congruence.
Qed.

Lemma do_all_tree ops d :
  Forall (fun op => ∀ d, tree d → tree (snd (op d))) ops →
  tree d → tree (snd (do_all ops d)).
Proof.
  intros Hops. revert d. induction Hops as [|op rest Hop _ IH]; intros d Htree;
    simpl; [done|].
  specialize (Hop d Htree). destruct (op d) as [[e|] d']; [done|].
  by apply IH.
Qed.


(** X18: both operations keep the disk a tree, whether they succeed or fail
    half-way. *)
Theorem project_directory_stays_tree (p : Project)
    (name subdir content : string) (initcf initpy : option string)
    (d : gmap (list string) Node) :
  tree d →
  tree (snd (create_module p name initcf initpy d)) ∧
  tree (snd (add_mock_file p subdir name content d)).
Proof.
  intros Htree. split; (apply do_all_tree; [|done]);
    repeat (apply Forall_cons_2);
    try apply Forall_nil_2;
    try (intros d0 Hd0; first [by apply os_mkdir_tree
                              | by apply write_file_tree]).
  intros d0 Hd0. destruct (negb _); [by apply os_mkdir_tree|done].
Qed.


Ltac disk_lookup :=
  simpl;
  repeat first [rewrite lookup_insert_eq
               | rewrite lookup_insert_ne by congruence];
  try done.



(** X20: [create_module] on a module directory that exists already raises
    [FileExistsError] at its first [mkdir] and changes nothing; so does a
    second call with the same name. *)
Theorem create_module_existing_raises (p : Project) (name : string)
    (initcf initpy : option string) (d : gmap (list string) Node) :
  is_Some (d !! [_test_project_dir p; "libs"; name]) →
  create_module p name initcf initpy d
  = (Some (FileExistsError [_test_project_dir p; "libs"; name]), d).
Proof.
  intros [n Hn]. unfold create_module, do_all, os_mkdir. cbv zeta.
  simpl node_at at 1. by rewrite Hn.
Qed.





Lemma tree_disk0 : tree Examples.disk0.
Proof.
  unfold Examples.disk0.
  apply tree_insert; [|done|by disk_lookup|by left].
  apply tree_insert; [|done|done|by left].
  intros path node Hl. by rewrite lookup_empty in Hl.
Qed.

Lemma project_directory_stays_tree_witness :
  tree Examples.disk0 ∧
  tree (snd (create_module Examples.project0 "unittest" None None
               Examples.disk0)) ∧
  tree (snd (add_mock_file Examples.project0 "files" "motd" "hello"
               Examples.disk0)).
Proof.
  split; [exact tree_disk0|].
  destruct (project_directory_stays_tree Examples.project0 "unittest" "files"
              "hello" None None Examples.disk0 tree_disk0) as [Hc _].
  destruct (project_directory_stays_tree Examples.project0 "motd" "files"
              "hello" None None Examples.disk0 tree_disk0) as [_ Ha].
  done.
Defined.


Lemma create_module_existing_raises_witness :
  let d' := snd (create_module Examples.project0 "unittest" None None
                   Examples.disk0) in
  fst (create_module Examples.project0 "unittest" None None Examples.disk0)
  = None ∧
  create_module Examples.project0 "unittest" (Some "x") None d'
  = (Some (FileExistsError ["/tmp/p"; "libs"; "unittest"]), d').
Proof.
  split; [vm_compute; reflexivity|].
  apply (create_module_existing_raises Examples.project0 "unittest" (Some "x")
           None).
  vm_compute. eauto.
Defined.




(** ** Compiling, then deploying *)

Section CompileThenDeploy.

Context (fw : Framework).

(** X24: a call of [deploy_resource] that follows a successful [compile]
    looks the resource up among the resources of that compile, in the order
    the exporter gave them: when none of them matches it raises the lookup
    assertion and the project is as the compile left it, and otherwise it can
    only return the first match. *)
Theorem compile_then_deploy_resource (main resource_type : string)
    (status : option ResourceState) (run_as_root : option bool)
    (filter_args : list (string * Value)) (w : World) (capsys : CapSys)
    (c : Compiled) :
  _capsys (self w) = Some capsys →
  do_compile fw main (_facts (self w)) = inr c →
  let run := (compile fw main ;;
              deploy_resource fw resource_type status run_as_root filter_args)
               w in
  match first_match (values (c_resources c)) resource_type filter_args with
  | None =>
      run = (inl (AssertionError
                    (Some "No resource found of given type and filter args")),
             snd (compile fw main w))
  | Some res =>
      matches resource_type filter_args res ∧
      ∀ r, fst run = inr r → r = res
  end.
Proof.
  intros Hcap Hcomp. cbv zeta.
  assert ((compile fw main ;;
           deploy_resource fw resource_type status run_as_root filter_args) w
          = deploy_resource fw resource_type status run_as_root filter_args
              (snd (compile fw main w))) as ->.
  { unfold mbind, M_bind, bind.
    by rewrite compile_unfold, Hcap, Hcomp. }
  rewrite deploy_resource_unfold.
  assert (resources (self (snd (compile fw main w))) = c_resources c) as ->.
  { by rewrite compile_unfold, Hcap, Hcomp. }
  destruct (first_match (values (c_resources c)) resource_type filter_args)
    as [res|] eqn:Hfound; [|reflexivity].
  split.
  - by apply first_match_Some in Hfound as (_ & _ & Hm & _).
  - intros r.
    destruct (deploy fw res _ None _) as [[e|ctx] w']; [discriminate|].
    case_bool_decide; simpl; congruence.
Qed.

(** X25: only the facts added since the last [init] reach the compiler: after
    the [project] fixture and one [add_fact] the compiler is called with
    exactly that fact, whatever facts the project held before, and [compile]
    returns or raises as that call of the compiler does (it never fails for
    a missing capture fixture). *)
Theorem fixture_add_fact_compile (capsys : CapSys)
    (resource_id name main : string) (value : Value) (w : World) :
  fst ((project_fixture capsys ;; add_fact resource_id name value ;;
        compile fw main) w)
  = match do_compile fw main {[ resource_id := {[ name := value ]} ]} with
    | inl e => inl e
    | inr _ => inr tt
    end.
Proof.
  unfold project_fixture, init, add_fact, get_self, modify_self, emit.
  unfold mbind at 1 2 3 4 5. unfold M_bind at 1 2 3 4 5.
  unfold bind at 1 2 3 4 5. simpl.
  rewrite compile_unfold. simpl.
  rewrite lookup_empty. simpl.
  rewrite insert_empty, insert_empty.
  by destruct (do_compile fw main _).
Qed.

End CompileThenDeploy.

Lemma compile_then_deploy_resource_witness :
  fst ((compile Examples.fw "import testmodule" ;;
        deploy_resource Examples.fw "testmodule::Resource" None None
          [("name", VStr "IT")]) Examples.world0) = inr Examples.res_it ∧
  fst ((compile Examples.fw "import testmodule" ;;
        deploy_resource Examples.fw "std::Service" None None [])
         Examples.world0)
  = inl (AssertionError
           (Some "No resource found of given type and filter args")).
Proof.
  pose proof (compile_then_deploy_resource Examples.fw "import testmodule"
                "std::Service" None None [] Examples.world0
                {| capsys_handle := 0 |}
                {| c_types := ∅; c_version := 1;
                   c_resources := [("r1", Examples.res_file);
                                   ("r2", Examples.res_db);
                                   ("r3", Examples.res_it)];
                   c_exporter :=
                     {| _file_store := [("h", Examples.payload)] |};
                   c_out := ""; c_err := "" |} eq_refl eq_refl) as Hnone.
  split; [vm_compute; reflexivity|].
  cbv zeta in Hnone. simpl first_match in Hnone. by rewrite Hnone.
Defined.
